(** * ftp_to_sheets: latest-file selection, table normalisation and sheet sync

    A shallow embedding of [ftp_to_sheets.py].  The script lists an FTP
    directory, picks the newest tabular file, parses it with pandas, bounds
    it to the columns A..Z and publishes it into a Google worksheet.

    Definitions, in the order of the file:
    - [PyStr], [PyList]: the operations on [str] and the builtins [max],
      [sorted] and [l[-1]] that the script uses;
    - [candidate], [newest]: the tuples of line 109 and the choice of lines
      116-119;
    - [cell], [DataFrame], [normalize]: the part of a pandas frame the
      script touches and lines 132-139;
    - [Remote], [PyLib], [call], [event]: the FTP server, the spreadsheet
      service, the clock and the pure library functions, and the record of
      the calls made to them;
    - [M]: state and exceptions; [get_mdtm], [load_df_from_bytes] and [main]
      as written in the script.  The [log] calls are left out: the model
      describes the runs in which no [print] raises.
    Then the properties that are stated about them, a concrete set of
    collaborators to run the script on, and the proofs. *)

From Stdlib Require Import List String Ascii ZArith NArith Bool Lia.
From Stdlib Require Import Sorting.Sorted Sorting.Permutation.
Import ListNotations.

Set Implicit Arguments.

Local Open Scope string_scope.
Local Open Scope list_scope.

(* ------------------------------------------------------------------ *)
(** ** Python strings *)

Module PyStr.

(** Names and replies are modelled as strings of code points below 256.
    [a < b] on Python [str]: code points compared left to right, a proper
    prefix being smaller.  This is [String.compare]. *)
Definition lt (a b : string) : bool := String.ltb a b.
Definition le (a b : string) : bool := String.leb a b.

(** [s.lower()] on code points below 256: the letters A-Z, and the
    accented capitals 192-222 other than the multiplication sign 215. *)
Definition lower_char (c : ascii) : ascii :=
  let n := nat_of_ascii c in
  if (65 <=? n)%nat && (n <=? 90)%nat then ascii_of_nat (n + 32)
  else if (192 <=? n)%nat && (n <=? 222)%nat && negb (n =? 215)%nat
  then ascii_of_nat (n + 32)
  else c.

Fixpoint lower (s : string) : string :=
  match s with
  | EmptyString => EmptyString
  | String c s' => String (lower_char c) (lower s')
  end.

(** [s.rfind(c)]: index of the last occurrence, [-1] when there is none. *)
Fixpoint rfind_from (c : ascii) (s : string) (i found : Z) : Z :=
  match s with
  | EmptyString => found
  | String a s' => rfind_from c s' (i + 1) (if Ascii.eqb a c then i else found)
  end.

Definition rfind (c : ascii) (s : string) : Z := rfind_from c s 0 (-1).

Fixpoint has_non_dot (s : string) : bool :=
  match s with
  | EmptyString => false
  | String a s' => negb (Ascii.eqb a ".") || has_non_dot s'
  end.

(** [p[i:]] *)
Definition slice_from (i : Z) (p : string) : string :=
  String.substring (Z.to_nat i) (String.length p - Z.to_nat i) p.

(** [os.path.splitext(p)[1]] (posixpath): the suffix that starts at the last
    dot, provided that dot comes after the last slash and some character
    between that slash and the dot is not a dot; otherwise the empty
    string. *)
Definition splitext_ext (p : string) : string :=
  let sepIndex := rfind "/" p in
  let dotIndex := rfind "." p in
  if (sepIndex <? dotIndex)%Z
  then
    if has_non_dot (String.substring (Z.to_nat (sepIndex + 1))
                                     (Z.to_nat (dotIndex - (sepIndex + 1))) p)
    then slice_from dotIndex p
    else EmptyString
  else EmptyString.

(** [x in [a, b, ...]] on strings. *)
Definition mem (x : string) (l : list string) : bool :=
  existsb (String.eqb x) l.

(** [s.startswith(p)] *)
Definition startswith (p s : string) : bool := String.prefix p s.

(** Whitespace of [str.split()] and [str.strip()] below 256: space, tab,
    newline, vertical tab, form feed, carriage return, the separators
    28-31, next line (133) and no-break space (160). *)
Definition isspace (c : ascii) : bool :=
  let n := nat_of_ascii c in
  (n =? 32)%nat || ((9 <=? n)%nat && (n <=? 13)%nat)
  || ((28 <=? n)%nat && (n <=? 31)%nat) || (n =? 133)%nat || (n =? 160)%nat.

(** [s.split()]: the maximal runs of non-whitespace characters.  [cur] is
    the run being read, reversed. *)
Fixpoint split_from (s : string) (cur : list ascii) : list string :=
  match s with
  | EmptyString =>
      match cur with
      | [] => []
      | _ => [string_of_list_ascii (rev cur)]
      end
  | String c s' =>
      if isspace c
      then match cur with
           | [] => split_from s' []
           | _ => string_of_list_ascii (rev cur) :: split_from s' []
           end
      else split_from s' (c :: cur)
  end.

Definition split (s : string) : list string := split_from s [].

Fixpoint lstrip (s : string) : string :=
  match s with
  | EmptyString => EmptyString
  | String c s' => if isspace c then lstrip s' else s
  end.

Definition rev_string (s : string) : string :=
  string_of_list_ascii (rev (list_ascii_of_string s)).

(** [s.strip()] *)
Definition strip (s : string) : string :=
  rev_string (lstrip (rev_string (lstrip s))).

End PyStr.

(* ------------------------------------------------------------------ *)
(** ** Python builtins used by the selection *)

Module PyList.

Section KeyOrder.
Variables (A K : Type).
(** [gt k1 k2] is the key comparison [k1 > k2]; [lt] is [k1 < k2]. *)
Variable key : A -> K.

(** [max(iterable, key=...)]: the first item whose key is maximal; a later
    item replaces the running maximum only when its key is strictly
    greater. *)
Fixpoint max_from (gt : K -> K -> bool) (best : A) (rest : list A) : A :=
  match rest with
  | [] => best
  | x :: rest' =>
      max_from gt (if gt (key x) (key best) then x else best) rest'
  end.

(** [None] stands for the [ValueError] raised on an empty sequence. *)
Definition py_max (gt : K -> K -> bool) (l : list A) : option A :=
  match l with
  | [] => None
  | x :: rest => Some (max_from gt x rest)
  end.

(** [sorted(iterable, key=...)]: ascending and stable, comparing keys
    with [<] only.  The stable sort of a list is unique, so insertion
    sort stands for it: [x], which precedes every item of [l], goes in
    front of the first item whose key is not smaller than its own. *)
Fixpoint insert_sorted (lt : K -> K -> bool) (x : A) (l : list A) : list A :=
  match l with
  | [] => [x]
  | y :: l' =>
      if lt (key y) (key x) then y :: insert_sorted lt x l' else x :: y :: l'
  end.

Fixpoint sorted (lt : K -> K -> bool) (l : list A) : list A :=
  match l with
  | [] => []
  | x :: l' => insert_sorted lt x (sorted lt l')
  end.

(** [a] may stand before [b] in ascending order of keys. *)
Definition ascending (lt : K -> K -> bool) (a b : A) : Prop :=
  lt (key b) (key a) = false.
End KeyOrder.

(** [l[-1]]; [None] stands for the [IndexError] on an empty list. *)
Fixpoint item_last (A : Type) (l : list A) : option A :=
  match l with
  | [] => None
  | [x] => Some x
  | _ :: l' => item_last l'
  end.

End PyList.


(* ------------------------------------------------------------------ *)
(** ** Candidates and the choice of the newest one (lines 116-119) *)

(** A timezone-aware UTC [datetime] as produced by [get_mdtm]: the number of
    seconds elapsed since [datetime.min] (0001-01-01 00:00:00).  Aware
    datetimes of one timezone compare by instant, which is the order of
    [N]. *)
Definition datetime : Type := N.

(** [datetime.min.replace(tzinfo=timezone.utc)] *)
Definition datetime_min : datetime := 0%N.

(** The tuple [(n, mdtm, size)] appended at line 109: [t[0]], [t[1]],
    [t[2]].  [ftp.size] returns an [int], or [None] when the reply is not a
    213 reply. *)
Record candidate : Type := Candidate {
  c_name : string;
  c_mdtm : option datetime;
  c_size : option Z
}.

(** Truth value of [c[1]]: [None] is false, every [datetime] is true. *)
Definition truthy (A : Type) (o : option A) : bool :=
  match o with
  | Some _ => true
  | None => false
  end.

(** [a or b] for an optional [a] whose values are all true. *)
Definition or_else (A : Type) (o : option A) (d : A) : A :=
  match o with
  | Some a => a
  | None => d
  end.

(** [lambda t: (t[1] or datetime.min.replace(tzinfo=timezone.utc), t[0])] *)
Definition key_mtime_name (t : candidate) : datetime * string :=
  (or_else (c_mdtm t) datetime_min, c_name t).

(** [k1 > k2] on the pairs above: tuples compare at the first position
    where they differ. *)
Definition pair_gt (k1 k2 : datetime * string) : bool :=
  if (fst k1 =? fst k2)%N then PyStr.lt (snd k2) (snd k1)
  else (fst k2 <? fst k1)%N.

(** Lines 116-119.  [None] stands for the exception Python raises on an
    empty list, which [main] excludes at line 111. *)
Definition newest (candidates : list candidate) : option candidate :=
  if existsb (fun c => truthy (c_mdtm c)) candidates
  then PyList.py_max key_mtime_name pair_gt candidates
  else PyList.item_last (PyList.sorted c_name PyStr.lt candidates).

(* ------------------------------------------------------------------ *)
(** ** Cells and frames (lines 132-139) *)

(** A [float64] value. *)
Inductive pyfloat : Type :=
| Finite (mantissa exponent : Z)
| PosInf
| NegInf
| NaN.

(** A scalar held by a DataFrame or sent to the worksheet. *)
Inductive cell : Type :=
| Str (s : string)
| Int (z : Z)
| Bool (b : bool)
| Float (f : pyfloat)
| Timestamp (t : datetime)
| NaT
| PyNone.

(** The dtype of a column, as far as lines 132-139 depend on it:
    [datetime64[ns]], which [read_excel] gives to a column of dates, or one
    of the other dtypes the readers produce (object, float64, int64, bool),
    which [replace] and [fillna] treat alike.  Both calls leave a column on
    its side of this divide. *)
Inductive dtype : Type :=
| Datetime64
| OtherDtype.

(** The part of a [pandas.DataFrame] the script reads: the column labels,
    the dtype of each column and the rows of [df.values].  In a DataFrame
    every row has one cell per label ([well_formed]). *)
Record DataFrame : Type := mkDataFrame {
  columns : list cell;
  dtypes : list dtype;
  rows : list (list cell)
}.

Definition well_formed (df : DataFrame) : Prop :=
  Forall (fun r => List.length r = List.length (columns df)) (rows df).

(** [df.shape] *)
Definition shape (df : DataFrame) : nat * nat :=
  (List.length (rows df), List.length (columns df)).

(** [df.iloc[:, :n]] *)
Definition iloc_cols (n : nat) (df : DataFrame) : DataFrame :=
  {| columns := firstn n (columns df);
     dtypes := firstn n (dtypes df);
     rows := map (firstn n) (rows df) |}.

(** [x == np.inf] and [x == -np.inf] *)
Definition is_pos_inf (c : cell) : bool :=
  match c with
  | Float PosInf => true
  | _ => false
  end.

Definition is_neg_inf (c : cell) : bool :=
  match c with
  | Float NegInf => true
  | _ => false
  end.

(** [pd.isna(x)]: the missing-value markers. *)
Definition isna (c : cell) : bool :=
  match c with
  | Float NaN | NaT | PyNone => true
  | _ => false
  end.

(** Apply [f] to each cell of a row, with the dtype of the cell's column;
    a column without recorded dtype counts as [OtherDtype]. *)
Fixpoint map_typed (f : dtype -> cell -> cell) (dts : list dtype)
         (r : list cell) : list cell :=
  match r with
  | [] => []
  | c :: r' => f (hd OtherDtype dts) c :: map_typed f (tl dts) r'
  end.

(** A column-wise operation that keeps labels and dtypes. *)
Definition map_cells (f : dtype -> cell -> cell) (df : DataFrame)
  : DataFrame :=
  {| columns := columns df;
     dtypes := dtypes df;
     rows := map (map_typed f (dtypes df)) (rows df) |}.

(** [replace([np.inf, -np.inf], None)] on one cell: a cell equal to a
    listed value becomes [None], the explicit [None] being taken as the
    replacement value; a datetime64 column cannot hold the listed values
    and is returned as it is. *)
Definition replace_cell (d : dtype) (c : cell) : cell :=
  match d with
  | Datetime64 => c
  | OtherDtype => if is_pos_inf c || is_neg_inf c then PyNone else c
  end.

(** [fillna("")] on one cell: a missing cell becomes the empty string,
    except in a datetime64 column, where the fill value is first converted
    to the column's dtype: the empty string converts to [NaT] and the
    missing cells stay [NaT]. *)
Definition fillna_cell (d : dtype) (c : cell) : cell :=
  match d with
  | Datetime64 => c
  | OtherDtype => if isna c then Str "" else c
  end.

(** [df.replace([np.inf, -np.inf], None)] *)
Definition replace_inf_none (df : DataFrame) : DataFrame :=
  map_cells replace_cell df.

(** [df.fillna("")] *)
Definition fillna_empty (df : DataFrame) : DataFrame :=
  map_cells fillna_cell df.

Definition MAX_COLS : nat := 26.
Definition A1Z_RANGE : string := "A1:Z".
Definition START_CELL : string := "A1".

(** Lines 132-134. *)
Definition truncate_columns (df : DataFrame) : DataFrame :=
  if (MAX_COLS <? snd (shape df))%nat then iloc_cols MAX_COLS df else df.

(** Line 136. *)
Definition sanitize (df : DataFrame) : DataFrame :=
  fillna_empty (replace_inf_none df).

(** Lines 138-139; [str_of] is Python's [str] on a column label. *)
Definition values_of (str_of : cell -> string) (df : DataFrame)
  : list (list cell) :=
  map (fun c => Str (str_of c)) (columns df) :: rows df.

(** Lines 132-139: from the parsed frame to the grid that is written. *)
Definition normalize (str_of : cell -> string) (df : DataFrame)
  : list (list cell) :=
  values_of str_of (sanitize (truncate_columns df)).

(* ------------------------------------------------------------------ *)
(** ** The remote collaborators and the calls made to them *)

(** A raised [Exception].  [WorksheetNotFound] is the one class the script
    catches by name (line 144). *)
Inductive exn : Type :=
| WorksheetNotFound
| Error (what : string).

Definition bytes : Type := list Byte.byte.

(** A gspread [Worksheet] handle: [ws.title] and [ws.row_count] are read
    from the properties fetched with it. *)
Record worksheet : Type := mkWorksheet {
  ws_title : string;
  ws_row_count : nat
}.

(** Configuration read from the environment (lines 57-65). *)
Record config : Type := mkConfig {
  FTP_HOST : string;
  FTP_USER : string;
  FTP_PASS : string;
  FTP_DIR : string;
  SPREADSHEET_ID : string;
  WORKSHEET_NAME : string
}.

(** One constructor per library call of the script. *)
Inductive call : Type :=
| FtpConnect (host : string)
| FtpLogin (user passwd : string)
| FtpCwd (dir : string)
| FtpNlst
| FtpRetrlines (cmd : string)
| FtpSize (name : string)
| FtpSendcmd (cmd : string)
| FtpRetrbinary (cmd : string)
| FtpQuit
| ReadCsv (encoding : option string)
| ReadExcel
| OpenByKey (key : string)
| GetWorksheet (title : string)
| AddWorksheet (title : string) (nrows ncols : nat)
| BatchClear (ranges : list string)
| ValuesClear (range : string)
| AddRows (n : nat)
| Update (range : string) (values : list (list cell))
| InsertRow (values : list cell) (index : nat)
| ZoneInfo (key : string)
| Now (display : string).

(** A call that was made, and the exception it raised, if any. *)
Record event : Type := Event {
  ev_call : call;
  ev_raised : option exn
}.

Definition ev_ok (e : event) : bool :=
  match ev_raised e with
  | None => true
  | Some _ => false
  end.

(** The FTP server, the spreadsheet service and the clock, over a world
    [W] that the calls may change.  A call returns its result, or the
    exception it raises. *)
Record Remote (W : Type) : Type := mkRemote {
  ftp_connect : string -> W -> (exn + unit) * W;
  ftp_login : string -> string -> W -> (exn + unit) * W;
  ftp_cwd : string -> W -> (exn + unit) * W;
  ftp_nlst : W -> (exn + list string) * W;
  ftp_retrlines : string -> W -> (exn + list string) * W;
  ftp_size : string -> W -> (exn + option Z) * W;
  ftp_sendcmd : string -> W -> (exn + string) * W;
  ftp_retrbinary : string -> W -> (exn + bytes) * W;
  ftp_quit : W -> (exn + unit) * W;
  open_by_key : string -> W -> (exn + unit) * W;
  sh_worksheet : string -> W -> (exn + worksheet) * W;
  sh_add_worksheet : string -> nat -> nat -> W -> (exn + worksheet) * W;
  ws_batch_clear : list string -> W -> (exn + unit) * W;
  values_clear : string -> W -> (exn + unit) * W;
  ws_add_rows : nat -> W -> (exn + unit) * W;
  ws_update : string -> list (list cell) -> W -> (exn + unit) * W;
  ws_insert_row : list cell -> nat -> W -> (exn + unit) * W;
  (** [ZoneInfo(key)]: the lookup of a time zone on the system *)
  zoneinfo : string -> W -> (exn + unit) * W;
  (** [datetime.now(tz)] rendered by
      [strftime("Report synced at %I:%M %p | %d-%b-%Y")] *)
  now_strftime : W -> string * W
}.

(** The pure library functions the script calls. *)
Record PyLib : Type := mkPyLib {
  (** [datetime.strptime(ts, "%Y%m%d%H%M%S")]; [None] is its [ValueError] *)
  strptime : string -> option datetime;
  (** [pd.read_csv(bio)] and [pd.read_csv(bio, encoding=...)] *)
  read_csv : option string -> bytes -> exn + DataFrame;
  (** [pd.read_excel(bio)] *)
  read_excel : bytes -> exn + DataFrame;
  (** [str(c)] on a column label *)
  str_of : cell -> string
}.

(* ------------------------------------------------------------------ *)
(** ** State and exceptions *)

(** The world and the calls made so far, oldest first. *)
Record state (W : Type) : Type := mkState {
  world : W;
  calls : list event
}.

Definition M (W A : Type) : Type := state W -> (exn + A) * state W.

Definition ret (W A : Type) (a : A) : M W A := fun s => (inr a, s).

Definition raise (W A : Type) (e : exn) : M W A := fun s => (inl e, s).

Arguments ret {W A} a.
Arguments raise {W A} e.

Definition bind (W A B : Type) (m : M W A) (k : A -> M W B) : M W B :=
  fun s =>
    match m s with
    | (inl e, s') => (inl e, s')
    | (inr a, s') => k a s'
    end.

(** [try: m  except Exception as e: h e] *)
Definition try_except (W A : Type) (m : M W A) (h : exn -> M W A) : M W A :=
  fun s =>
    match m s with
    | (inl e, s') => h e s'
    | (inr a, s') => (inr a, s')
    end.

Definition raised (A : Type) (r : exn + A) : option exn :=
  match r with
  | inl e => Some e
  | inr _ => None
  end.

(** Make a remote call and record it. *)
Definition perform (W A : Type) (c : call) (op : W -> (exn + A) * W) : M W A :=
  fun s =>
    let (r, w) := op (world s) in
    (r, {| world := w; calls := calls s ++ [Event c (raised r)] |}).

(** Evaluate a pure library function and record the call. *)
Definition evaluate (W A : Type) (c : call) (r : exn + A) : M W A :=
  perform c (fun w : W => (r, w)).

Declare Scope run_scope.
Delimit Scope run_scope with run.
Notation "x <- m ;; k" := (bind m (fun x => k))
  (at level 100, m at next level, right associativity) : run_scope.
Notation "m ;; k" := (bind m (fun _ => k))
  (at level 100, right associativity) : run_scope.

(** Exit status of the interpreter once [main()] has returned or raised. *)
Definition exit_status (r : exn + unit) : Z :=
  match r with
  | inl _ => 1
  | inr _ => 0
  end.

(* ------------------------------------------------------------------ *)
(** ** The script *)

Section Script.
Variable W : Type.
Variable remote : Remote W.
Variable lib : PyLib.
Variable cfg : config.

Local Open Scope run_scope.

(** Lines 27-34.  A reply that does not start with 213 falls through the
    [if] and returns [None]; any exception gives [None] too. *)
Definition get_mdtm (name : string) : M W (option datetime) :=
  try_except
    (resp <- perform (FtpSendcmd ("MDTM " ++ name))
                     (ftp_sendcmd remote ("MDTM " ++ name)) ;;
     if PyStr.startswith "213" resp
     then
       match nth_error (PyStr.split resp) 1 with
       | None => raise (Error "IndexError")
       | Some ts =>
           match strptime lib (PyStr.strip ts) with
           | None => raise (Error "ValueError")
           | Some d => ret (Some d)
           end
       end
     else ret None)
    (fun _ => ret None).

(** Lines 36-54.  The handler covers the whole [try] block, whichever
    branch raised; the bare [raise] of the inner handler re-raises the
    exception of the latin1 attempt. *)
Definition load_df_from_bytes (filename : string) (data_bytes : bytes)
  : M W DataFrame :=
  let ext := PyStr.lower (PyStr.splitext_ext filename) in
  try_except
    (if PyStr.mem ext [".csv"; ".txt"]
     then evaluate (ReadCsv None) (read_csv lib None data_bytes)
     else if PyStr.mem ext [".xls"; ".xlsx"]
     then evaluate ReadExcel (read_excel lib data_bytes)
     else evaluate (ReadCsv None) (read_csv lib None data_bytes))
    (fun e =>
       try_except
         (evaluate (ReadCsv (Some "latin1"))
                   (read_csv lib (Some "latin1") data_bytes))
         (fun e' => raise e')).

(** Line 95: [[ln.split()[-1] for ln in lines if ln.strip()]] *)
Fixpoint names_of_lines (lines : list string) : M W (list string) :=
  match lines with
  | [] => ret []
  | ln :: rest =>
      match PyStr.strip ln with
      | EmptyString => names_of_lines rest
      | String _ _ =>
          match PyList.item_last (PyStr.split ln) with
          | None => raise (Error "IndexError")
          | Some n => ns <- names_of_lines rest ;; ret (n :: ns)
          end
      end
  end.

(** Lines 90-95. *)
Definition list_names : M W (list string) :=
  try_except
    (perform FtpNlst (ftp_nlst remote))
    (fun _ =>
       lines <- perform (FtpRetrlines "LIST") (ftp_retrlines remote "LIST") ;;
       names_of_lines lines).

(** Lines 97-109: the eligibility filter.  A name is kept when it is not a
    directory entry, its extension is supported and its size query
    returned. *)
Fixpoint collect (names : list string) : M W (list candidate) :=
  match names with
  | [] => ret []
  | n :: rest =>
      if PyStr.mem n ["."; ".."] then collect rest
      else if negb (PyStr.mem (PyStr.lower (PyStr.splitext_ext n))
                              [".csv"; ".txt"; ".xls"; ".xlsx"])
      then collect rest
      else
        r <- try_except
               (size <- perform (FtpSize n) (ftp_size remote n) ;;
                ret (Some size))
               (fun _ => ret None) ;;
        match r with
        | None => collect rest
        | Some size =>
            mdtm <- get_mdtm n ;;
            cs <- collect rest ;;
            ret (Candidate n mdtm size :: cs)
        end
  end.
(** Lines 141-145: the worksheet, created when it is not found. *)
Definition open_worksheet (values : list (list cell)) : M W worksheet :=
  perform (OpenByKey (SPREADSHEET_ID cfg))
          (open_by_key remote (SPREADSHEET_ID cfg)) ;;
  fun s =>
    match perform (GetWorksheet (WORKSHEET_NAME cfg))
                  (sh_worksheet remote (WORKSHEET_NAME cfg)) s with
    | (inl WorksheetNotFound, s') =>
        let nrows := Nat.max 100 (List.length values + 10) in
        perform (AddWorksheet (WORKSHEET_NAME cfg) nrows MAX_COLS)
                (sh_add_worksheet remote (WORKSHEET_NAME cfg) nrows MAX_COLS)
                s'
    | other => other
    end.

(** Lines 147-152, step 1: clear A1:Z, by [values_clear] when
    [batch_clear] raises. *)
Definition step1_clear (ws : worksheet) : M W unit :=
  try_except
    (perform (BatchClear [A1Z_RANGE]) (ws_batch_clear remote [A1Z_RANGE]))
    (fun _ =>
       let range := ("'" ++ ws_title ws ++ "'!" ++ A1Z_RANGE)%string in
       perform (ValuesClear range) (values_clear remote range)).

(** Lines 154-157. *)
Definition ensure_rows (ws : worksheet) (values : list (list cell))
  : M W unit :=
  let needed_rows := List.length values in
  if (ws_row_count ws <? needed_rows)%nat
  then perform (AddRows (needed_rows - ws_row_count ws))
               (ws_add_rows remote (needed_rows - ws_row_count ws))
  else ret tt.

(** Lines 159-163, step 2: the data write. *)
Definition step2_paste (values : list (list cell)) : M W unit :=
  let trimmed := map (firstn MAX_COLS) values in
  match trimmed with
  | [] => ret tt
  | _ :: _ => perform (Update START_CELL trimmed)
                      (ws_update remote START_CELL trimmed)
  end.

(** Lines 165-167, step 3. *)
Definition step3_insert_blank : M W unit :=
  perform (InsertRow (repeat (Str "") MAX_COLS) 1)
          (ws_insert_row remote (repeat (Str "") MAX_COLS) 1).

(** Lines 169-172, step 4. *)
Definition step4_timestamp : M W unit :=
  perform (ZoneInfo "Asia/Ho_Chi_Minh")
          (zoneinfo remote "Asia/Ho_Chi_Minh") ;;
  timestamp <- (fun s =>
                  let (t, w) := now_strftime remote (world s) in
                  (inr t, {| world := w;
                             calls := calls s ++ [Event (Now t) None] |})) ;;
  perform (Update "A1" [[Str timestamp]])
          (ws_update remote "A1" [[Str timestamp]]).

(** Lines 174-175, step 5. *)
Definition step5_source (filename : string) : M W unit :=
  let note := ("Source file name: " ++ filename)%string in
  perform (Update "D1" [[Str note]]) (ws_update remote "D1" [[Str note]]).

(** Lines 141-175. *)
Definition publish (filename : string) (values : list (list cell))
  : M W unit :=
  ws <- open_worksheet values ;;
  step1_clear ws ;;
  ensure_rows ws values ;;
  step2_paste values ;;
  step3_insert_blank ;;
  step4_timestamp ;;
  step5_source filename.

(** Lines 86-109: connect and build [candidates]. *)
Definition fetch_candidates : M W (list candidate) :=
  perform (FtpConnect (FTP_HOST cfg)) (ftp_connect remote (FTP_HOST cfg)) ;;
  perform (FtpLogin (FTP_USER cfg) (FTP_PASS cfg))
          (ftp_login remote (FTP_USER cfg) (FTP_PASS cfg)) ;;
  perform (FtpCwd (FTP_DIR cfg)) (ftp_cwd remote (FTP_DIR cfg)) ;;
  names <- list_names ;;
  collect names.

(** Lines 111-175, once [candidates] is known. *)
Definition process (candidates : list candidate) : M W unit :=
  match candidates with
  | [] => perform FtpQuit (ftp_quit remote)
  | _ :: _ =>
      match newest candidates with
      | None => raise (Error "ValueError")
      | Some t =>
          let filename := c_name t in
          data_bytes <- perform (FtpRetrbinary ("RETR " ++ filename))
                                (ftp_retrbinary remote ("RETR " ++ filename)) ;;
          perform FtpQuit (ftp_quit remote) ;;
          df <- load_df_from_bytes filename data_bytes ;;
          publish filename (normalize (str_of lib) df)
      end
  end.

(** Lines 83-182.  The handler logs and re-raises what it caught; the
    [log] calls of the body and of the handler are left out, so that a run
    of [main] is a run of the script in which no [print] raises. *)
Definition main : M W unit :=
  try_except
    (candidates <- fetch_candidates ;;
     process candidates)
    (fun exc => raise exc).

(** A run of the script in world [w]: the result of [main()] and the final
    state, starting with no call made. *)
Definition run (w : W) : (exn + unit) * state W :=
  main {| world := w; calls := [] |}.

End Script.

(* ------------------------------------------------------------------ *)
(** ** Reading the list of calls *)

Definition is_ftp (c : call) : bool :=
  match c with
  | FtpConnect _ | FtpLogin _ _ | FtpCwd _ | FtpNlst | FtpRetrlines _
  | FtpSize _ | FtpSendcmd _ | FtpRetrbinary _ | FtpQuit => true
  | _ => false
  end.

(** The parser calls. *)
Definition is_parse (c : call) : bool :=
  match c with
  | ReadCsv _ | ReadExcel => true
  | _ => false
  end.

(** The calls to the spreadsheet service. *)
Definition is_sheet (c : call) : bool :=
  match c with
  | OpenByKey _ | GetWorksheet _ | AddWorksheet _ _ _ | BatchClear _
  | ValuesClear _ | AddRows _ | Update _ _ | InsertRow _ _ => true
  | _ => false
  end.

Definition is_clear (c : call) : bool :=
  match c with
  | BatchClear _ | ValuesClear _ => true
  | _ => false
  end.

Definition is_update (c : call) : bool :=
  match c with
  | Update _ _ => true
  | _ => false
  end.

Definition is_insert_row (c : call) : bool :=
  match c with
  | InsertRow _ _ => true
  | _ => false
  end.

(** The calls of lines 170-171. *)
Definition is_clock (c : call) : bool :=
  match c with
  | ZoneInfo _ | Now _ => true
  | _ => false
  end.

Definition on_call (p : call -> bool) (e : event) : bool := p (ev_call e).

(** Every call of [log] satisfies [p]. *)
Definition only (p : call -> bool) (log : list event) : bool :=
  forallb (on_call p) log.

(** Whatever the state, [m] adds to the list of calls only calls that
    satisfy [p]. *)
Definition emits (W A : Type) (p : call -> bool) (m : M W A) : Prop :=
  forall s r s',
    m s = (r, s') ->
    exists evs, calls s' = calls s ++ evs /\ only p evs = true.

(** A clear of the write window returned. *)
Definition clear_completed (log : list event) : bool :=
  existsb (fun e => is_clear (ev_call e) && ev_ok e) log.

(** The first [ws.update] call of a run.  It is the data write of step 2:
    lines 163, 172 and 175 hold the only [ws.update] calls, in that
    order. *)
Definition first_update (log : list event) : option event :=
  find (on_call is_update) log.

(** *** A1 notation

    [gspread.utils.a1_to_rowcol]: letters, then a row number without a
    leading zero; the result is [(row, col)], both counted from 1. *)
Definition letter_value (c : ascii) : option nat :=
  let n := nat_of_ascii c in
  if (65 <=? n)%nat && (n <=? 90)%nat then Some (n - 64)
  else if (97 <=? n)%nat && (n <=? 122)%nat then Some (n - 96)
  else None.

Definition digit_value (c : ascii) : option nat :=
  let n := nat_of_ascii c in
  if (48 <=? n)%nat && (n <=? 57)%nat then Some (n - 48) else None.

Fixpoint a1_row (s : string) (acc : nat) : option nat :=
  match s with
  | EmptyString => Some acc
  | String c s' =>
      match digit_value c with
      | Some d => a1_row s' (10 * acc + d)
      | None => None
      end
  end.

Fixpoint a1_col (s : string) (acc : nat) : option (nat * nat) :=
  match s with
  | EmptyString => None
  | String c s' =>
      match letter_value c with
      | Some v => a1_col s' (26 * acc + v)
      | None =>
          match acc, digit_value c with
          | S _, Some (S _) =>
              match a1_row s 0 with
              | Some row => Some (row, acc)
              | None => None
              end
          | _, _ => None
          end
      end
  end.

Definition a1_to_rowcol (label : string) : option (nat * nat) :=
  a1_col label 0.

(* ------------------------------------------------------------------ *)
(** ** Properties of a selection *)

Definition has_mtime (l : list candidate) : Prop :=
  exists c, In c l /\ c_mdtm c <> None.


(** [d] carries the greatest key of line 117: the modification time, a
    missing one counting as [datetime_min], then the name. *)
Definition greatest_key (l : list candidate) (d : candidate) : Prop :=
  In d l /\
  forall c, In c l -> pair_gt (key_mtime_name c) (key_mtime_name d) = false.

Definition greatest_name (l : list candidate) (d : candidate) : Prop :=
  In d l /\
  forall c, In c l -> PyStr.le (c_name c) (c_name d) = true.

(** Two descriptors that differ at most in their size. *)
Definition same_but_size (a b : candidate) : Prop :=
  c_name a = c_name b /\ c_mdtm a = c_mdtm b.

(* ------------------------------------------------------------------ *)
(** ** Properties of a frame *)

(** What line 136 does to one cell of a column of dtype [d]. *)
Definition sanitize_cell (d : dtype) (c : cell) : cell :=
  fillna_cell d (replace_cell d c).



(* ------------------------------------------------------------------ *)
(** ** Properties of a run *)

(** The run ends with the blank row inserted at index 1, the clock read in
    the time zone of Ho Chi Minh City, and the two notes written on row 1: the timestamp in column 1 and the
    name of the downloaded file [offset] columns to its right. *)
Definition annotated (offset : nat) (log : list event) : Prop :=
  exists pre filename timestamp c1 c2,
    log = pre ++
          [Event (InsertRow (repeat (Str "") MAX_COLS) 1) None;
           Event (ZoneInfo "Asia/Ho_Chi_Minh") None;
           Event (Now timestamp) None;
           Event (Update c1 [[Str timestamp]]) None;
           Event (Update c2 [[Str ("Source file name: " ++ filename)]]) None]
    /\ In (Event (FtpRetrbinary ("RETR " ++ filename)) None) pre
    /\ a1_to_rowcol c1 = Some (1, 1)
    /\ a1_to_rowcol c2 = Some (1, 1 + offset).

(** The calls of lines 141-157: opening the worksheet, clearing the window
    and adding rows. *)
Definition is_setup (c : call) : bool :=
  match c with
  | OpenByKey _ | GetWorksheet _ | AddWorksheet _ _ _ | BatchClear _
  | ValuesClear _ | AddRows _ => true
  | _ => false
  end.

(** The calls made before any call to the spreadsheet service. *)
Definition is_input (c : call) : bool := is_ftp c || is_parse c.

(** The calls made before the data write of step 2. *)
Definition is_before_write (c : call) : bool := is_input c || is_setup c.

Definition data_write (values : list (list cell)) : call :=
  Update START_CELL (map (firstn MAX_COLS) values).

Definition blank_row : call := InsertRow (repeat (Str "") MAX_COLS) 1.

Definition source_note (cell_ref filename : string) : call :=
  Update cell_ref [[Str ("Source file name: " ++ filename)]].

(** The result of steps 2 to 5 and the calls they make: one constructor
    per point where the sequence can stop. *)
Inductive steps_2_to_5 (filename : string) (values : list (list cell))
  : exn + unit -> list event -> Prop :=
| Write_raised (e : exn) :
    steps_2_to_5 filename values (inl e)
      [Event (data_write values) (Some e)]
| Insert_raised (e : exn) :
    steps_2_to_5 filename values (inl e)
      [Event (data_write values) None; Event blank_row (Some e)]
| Zone_raised (e : exn) :
    steps_2_to_5 filename values (inl e)
      [Event (data_write values) None; Event blank_row None;
       Event (ZoneInfo "Asia/Ho_Chi_Minh") (Some e)]
| Timestamp_raised (e : exn) (timestamp : string) :
    steps_2_to_5 filename values (inl e)
      [Event (data_write values) None; Event blank_row None;
       Event (ZoneInfo "Asia/Ho_Chi_Minh") None;
       Event (Now timestamp) None;
       Event (Update "A1" [[Str timestamp]]) (Some e)]
| Source_raised (e : exn) (timestamp : string) :
    steps_2_to_5 filename values (inl e)
      [Event (data_write values) None; Event blank_row None;
       Event (ZoneInfo "Asia/Ho_Chi_Minh") None;
       Event (Now timestamp) None;
       Event (Update "A1" [[Str timestamp]]) None;
       Event (source_note "D1" filename) (Some e)]
| Completed (timestamp : string) :
    steps_2_to_5 filename values (inr tt)
      [Event (data_write values) None; Event blank_row None;
       Event (ZoneInfo "Asia/Ho_Chi_Minh") None;
       Event (Now timestamp) None;
       Event (Update "A1" [[Str timestamp]]) None;
       Event (source_note "D1" filename) None].

(** The Excel reader having rejected the bytes, the parser raises and has
    made no call to the CSV reader. *)
Definition excel_failure_final
  (W : Type) (lib : PyLib) (filename : string) (data : bytes) (s : state W)
  : Prop :=
  forall e,
    read_excel lib data = inl e ->
    (exists e', fst (load_df_from_bytes lib filename data s) = inl e') /\
    (forall enc ex,
        ~ In (Event (ReadCsv enc) ex)
             (calls (snd (load_df_from_bytes lib filename data s)))).

(** With no candidate left by the filter, the run parses nothing, calls
    the spreadsheet service for nothing and ends with exit status 0. *)
Definition no_candidates_clean_exit
  (W : Type) (remote : Remote W) (lib : PyLib) (cfg : config) (w : W)
  : Prop :=
  forall s1,
    fetch_candidates remote lib cfg {| world := w; calls := [] |}
    = (inr [], s1) ->
    existsb (on_call is_parse) (calls (snd (run remote lib cfg w))) = false /\
    existsb (on_call is_sheet) (calls (snd (run remote lib cfg w))) = false /\
    exit_status (fst (run remote lib cfg w)) = 0%Z.

(* ------------------------------------------------------------------ *)
(** ** Test doubles

    Small concrete collaborators on which the script can be run. *)

Record scenario : Type := mkScenario {
  sc_names : list string;   (* what NLST returns *)
  sc_quit_ok : bool;        (* whether QUIT returns *)
  sc_update_ok : bool       (* whether ws.update returns *)
}.

Definition answer (A : Type) (ok : bool) (what : string) (a : A) : exn + A :=
  if ok then inr a else inl (Error what).

(** A server without MDTM support and a worksheet of 1000 rows. *)
Definition fake_remote (sc : scenario) : Remote unit :=
  {| ftp_connect := fun _ w => (inr tt, w);
     ftp_login := fun _ _ w => (inr tt, w);
     ftp_cwd := fun _ w => (inr tt, w);
     ftp_nlst := fun w => (inr (sc_names sc), w);
     ftp_retrlines := fun _ w => (inr [], w);
     ftp_size := fun _ w => (inr (Some 10%Z), w);
     ftp_sendcmd := fun _ w => (inl (Error "error_perm"), w);
     ftp_retrbinary := fun _ w => (inr [], w);
     ftp_quit := fun w => (answer (sc_quit_ok sc) "EOFError" tt, w);
     open_by_key := fun _ w => (inr tt, w);
     sh_worksheet := fun title w => (inr (mkWorksheet title 1000), w);
     sh_add_worksheet := fun title n _ w => (inr (mkWorksheet title n), w);
     ws_batch_clear := fun _ w => (inr tt, w);
     values_clear := fun _ w => (inr tt, w);
     ws_add_rows := fun _ w => (inr tt, w);
     ws_update := fun _ _ w => (answer (sc_update_ok sc) "APIError" tt, w);
     ws_insert_row := fun _ _ w => (inr tt, w);
     zoneinfo := fun _ w => (inr tt, w);
     now_strftime := fun w => ("Report synced at 09:30 AM | 14-Aug-2025", w)
  |}.

Definition fake_frame : DataFrame :=
  {| columns := [Str "a"; Str "b"];
     dtypes := [OtherDtype; OtherDtype];
     rows := [[Int 1; Int 2]] |}.

(** A library whose Excel reader rejects the bytes and whose CSV reader
    accepts them, as for a text file named [.xlsx]. *)
Definition fake_lib : PyLib :=
  {| strptime := fun _ => None;
     read_csv := fun _ _ => inr fake_frame;
     read_excel := fun _ => inl (Error "ValueError");
     str_of := fun c => match c with Str s => s | _ => "" end
  |}.

Definition fake_cfg : config :=
  mkConfig "ftp.example.org" "user" "secret" "/drop" "sheet-id" "OOCL_import".

Definition fake_run (sc : scenario) : (exn + unit) * state unit :=
  run (fake_remote sc) fake_lib fake_cfg tt.

(** A library whose readers reject every input, each attempt with its own
    exception. *)
Definition strict_lib : PyLib :=
  {| strptime := fun _ => None;
     read_csv := fun enc _ =>
       match enc with
       | None => inl (Error "UnicodeDecodeError")
       | Some _ => inl (Error "ParserError")
       end;
     read_excel := fun _ => inl (Error "ValueError");
     str_of := fun c => match c with Str s => s | _ => "" end
  |}.

(** A server that refuses NLST and answers LIST with [listing]. *)
Definition list_remote (listing : exn + list string) : Remote unit :=
  let r := fake_remote (mkScenario [] true true) in
  {| ftp_connect := ftp_connect r;
     ftp_login := ftp_login r;
     ftp_cwd := ftp_cwd r;
     ftp_nlst := fun w => (inl (Error "error_perm"), w);
     ftp_retrlines := fun _ w => (listing, w);
     ftp_size := ftp_size r;
     ftp_sendcmd := fun _ w => (inr "213 20250814010001", w);
     ftp_retrbinary := ftp_retrbinary r;
     ftp_quit := ftp_quit r;
     open_by_key := open_by_key r;
     sh_worksheet := fun _ w => (inl WorksheetNotFound, w);
     sh_add_worksheet := sh_add_worksheet r;
     ws_batch_clear := fun _ w => (inl (Error "APIError"), w);
     values_clear := values_clear r;
     ws_add_rows := ws_add_rows r;
     ws_update := ws_update r;
     ws_insert_row := ws_insert_row r;
     zoneinfo := zoneinfo r;
     now_strftime := now_strftime r
  |}.

(** A library that reads 14 digits as a count of seconds, for the test
    doubles only. *)
Definition clock_lib : PyLib :=
  {| strptime := fun ts =>
       if (String.length ts =? 14)%nat then Some 42%N else None;
     read_csv := read_csv fake_lib;
     read_excel := read_excel fake_lib;
     str_of := str_of fake_lib
  |}.

(** A frame of one row and thirty columns, cell [j] holding [j]. *)
Definition wide_frame : DataFrame :=
  {| columns := map (fun j => Int (Z.of_nat j)) (seq 0 30);
     dtypes := repeat OtherDtype 30;
     rows := [map (fun j => Int (Z.of_nat j)) (seq 0 30)] |}.


(* ------------------------------------------------------------------ *)
(** ** Start-up configuration (lines 20-25 and 57-65) *)

(** [os.environ], read through [os.environ.get(name)]. *)
Definition environ : Type := string -> option string.

(** Lines 20-25.  [inl msg] stands for [sys.exit(1)] after [msg] was
    logged.  [if not v] holds for an unset variable and for an empty
    one. *)
Definition required_env (env : environ) (name : string) : string + string :=
  match env name with
  | Some (String c v) => inr (String c v)
  | Some EmptyString | None =>
      inl ("ERROR: required env var " ++ name ++ " is not set.")%string
  end.

(** What lines 57-65 bind: the configuration used by [main] and the
    service-account document. *)
Record settings : Type := mkSettings {
  st_config : config;
  st_service_account_json : string
}.

Definition and_then (A B : Type) (r : string + A) (k : A -> string + B)
  : string + B :=
  match r with
  | inl msg => inl msg
  | inr a => k a
  end.

(** Lines 57-65, in the order of the assignments. *)
Definition load_settings (env : environ) : string + settings :=
  and_then (required_env env "FTP_HOST") (fun host =>
  and_then (required_env env "FTP_USER") (fun user =>
  and_then (required_env env "FTP_PASS") (fun pass =>
  and_then (required_env env "FTP_DIR") (fun dir =>
  and_then (required_env env "SPREADSHEET_ID") (fun key =>
  let title := or_else (env "WORKSHEET_NAME") "OOCL_import" in
  and_then (required_env env "GOOGLE_SERVICE_ACCOUNT_JSON") (fun json =>
  inr (mkSettings (mkConfig host user pass dir key title) json))))))).

(** The variables [required_env] is called on, in that order. *)
Definition required_names : list string :=
  ["FTP_HOST"; "FTP_USER"; "FTP_PASS"; "FTP_DIR"; "SPREADSHEET_ID";
   "GOOGLE_SERVICE_ACCOUNT_JSON"].

(** [name] is set to a non-empty value. *)
Definition is_set (env : environ) (name : string) : bool :=
  match env name with
  | Some (String _ _) => true
  | _ => false
  end.

(* ------------------------------------------------------------------ *)
(** ** Further readings of the list of calls *)

(** The test of lines 101-102 on a name. *)
Definition supported_extension (n : string) : bool :=
  PyStr.mem (PyStr.lower (PyStr.splitext_ext n))
            [".csv"; ".txt"; ".xls"; ".xlsx"].

(** The calls of lines 86-108. *)
Definition is_listing (c : call) : bool :=
  match c with
  | FtpConnect _ | FtpLogin _ _ | FtpCwd _ | FtpNlst | FtpRetrlines _
  | FtpSize _ | FtpSendcmd _ => true
  | _ => false
  end.

(** The calls of lines 86-95. *)
Definition is_session (c : call) : bool :=
  match c with
  | FtpConnect _ | FtpLogin _ _ | FtpCwd _ | FtpNlst | FtpRetrlines _ => true
  | _ => false
  end.

(** The test of lines 99-103 on a name. *)
Definition eligible_name (n : string) : bool :=
  negb (PyStr.mem n ["."; ".."]) && supported_extension n.

(** The calls of the loop of lines 98-109. *)
Definition is_probe (c : call) : bool :=
  match c with
  | FtpSize _ | FtpSendcmd _ => true
  | _ => false
  end.

Definition is_sheet_or_clock (c : call) : bool := is_sheet c || is_clock c.

(** The names whose size was asked for, in the order of the queries. *)
Definition size_queries (log : list event) : list string :=
  flat_map (fun e => match ev_call e with
                     | FtpSize n => [n]
                     | _ => []
                     end) log.

(** The names whose size query returned. *)
Definition sized (log : list event) : list string :=
  flat_map (fun e => match ev_call e, ev_raised e with
                     | FtpSize n, None => [n]
                     | _, _ => []
                     end) log.

(** The commands given to [ftp.retrbinary]. *)
Definition downloads (log : list event) : list string :=
  flat_map (fun e => match ev_call e with
                     | FtpRetrbinary cmd => [cmd]
                     | _ => []
                     end) log.

(** A line that passes [if ln.strip()]. *)
Definition nonblank (ln : string) : bool :=
  match PyStr.strip ln with
  | EmptyString => false
  | String _ _ => true
  end.

(** A cell the worksheet can hold: neither infinite nor missing. *)
Definition plain (c : cell) : bool :=
  negb (is_pos_inf c || is_neg_inf c || isna c).

(** The FTP calls that follow the listing, given the names whose size is
    known: none, the closing [QUIT] when there is no candidate, or the
    download of one of these names, followed by [QUIT] when it returned. *)
Inductive closing (known : list string) : list event -> Prop :=
| Closing_none : closing known []
| Closing_quit (x : option exn) :
    known = [] -> closing known [Event FtpQuit x]
| Closing_retr (fn : string) (e : exn) :
    In fn known ->
    closing known [Event (FtpRetrbinary ("RETR " ++ fn)) (Some e)]
| Closing_retr_quit (fn : string) (x : option exn) :
    In fn known ->
    closing known [Event (FtpRetrbinary ("RETR " ++ fn)) None;
                   Event FtpQuit x].

(** A clear of the write window: [batch_clear] of the range A1:Z, or
    [values_clear] of that range of a worksheet named by its title. *)
Definition is_window_clear (c : call) : Prop :=
  c = BatchClear [A1Z_RANGE] \/
  exists title, c = ValuesClear ("'" ++ title ++ "'!" ++ A1Z_RANGE)%string.

(** A clear of the write window returned. *)
Definition window_cleared (log : list event) : Prop :=
  exists c, In (Event c None) log /\ is_window_clear c.

Definition is_download (c : call) : bool :=
  match c with
  | FtpRetrbinary _ => true
  | _ => false
  end.

(* ================================================================== *)
(** * Proofs *)

(* ------------------------------------------------------------------ *)
(** ** The helpers on concrete inputs *)

Example splitext_upper_case :
  PyStr.lower (PyStr.splitext_ext "report_2024.CSV") = ".csv".
Proof. reflexivity. Qed.

Example splitext_last_dot_only :
  PyStr.splitext_ext "drop/archive.tar.gz" = ".gz".
Proof. reflexivity. Qed.

Example splitext_leading_dots : PyStr.splitext_ext "dir/..hidden" = "".
Proof. reflexivity. Qed.

Example splitext_dot_in_directory : PyStr.splitext_ext "a.b/readme" = "".
Proof. reflexivity. Qed.

Example split_mdtm_reply :
  PyStr.split "213 20250814010001" = ["213"; "20250814010001"].
Proof. reflexivity. Qed.

Example split_list_line :
  PyList.item_last
    (PyStr.split "-rw-r--r--  1 ftp ftp   1024 Aug 14 01:00 report.csv")
  = Some "report.csv".
Proof. reflexivity. Qed.

Example strip_blank_line : PyStr.strip "   " = "".
Proof. reflexivity. Qed.

Example a1_cells :
  a1_to_rowcol "A1" = Some (1, 1) /\ a1_to_rowcol "D1" = Some (1, 4) /\
  a1_to_rowcol "E1" = Some (1, 5) /\ a1_to_rowcol "AA10" = Some (10, 27) /\
  a1_to_rowcol "A01" = None.
Proof. repeat split. Qed.

(** The later file wins whatever the order of the names. *)
Example newest_later_mtime (t1 t2 : datetime) (s1 s2 : option Z) :
  (t1 < t2)%N ->
  newest [Candidate "a.csv" (Some t1) s1; Candidate "b.csv" (Some t2) s2]
  = Some (Candidate "b.csv" (Some t2) s2)
  /\ newest [Candidate "b.csv" (Some t1) s1; Candidate "a.csv" (Some t2) s2]
     = Some (Candidate "a.csv" (Some t2) s2).
Proof.
  intros H. unfold newest, PyList.py_max, pair_gt; simpl.
  assert (E : (t2 =? t1)%N = false) by (apply N.eqb_neq; lia).
  assert (L : (t1 <? t2)%N = true) by now apply N.ltb_lt.
  now rewrite E, L.
Qed.

(** With equal keys [max] keeps the first item and [sorted(...)[-1]] the
    last one. *)
Example newest_equal_keys :
  newest [Candidate "a.csv" (Some 5%N) (Some 1%Z);
          Candidate "a.csv" (Some 5%N) (Some 2%Z)]
  = Some (Candidate "a.csv" (Some 5%N) (Some 1%Z))
  /\ newest [Candidate "a.csv" None (Some 1%Z);
             Candidate "a.csv" None (Some 2%Z)]
     = Some (Candidate "a.csv" None (Some 2%Z)).
Proof. split; reflexivity. Qed.

Example normalize_wide_frame :
  map (@List.length cell) (normalize (str_of fake_lib) wide_frame) = [26; 26]
  /\ nth_error (nth 1 (normalize (str_of fake_lib) wide_frame) []) 25
     = Some (Int 25)
  /\ nth_error (nth 1 (normalize (str_of fake_lib) wide_frame) []) 26 = None.
Proof. repeat split. Qed.

(* ------------------------------------------------------------------ *)
(** ** The order on names *)

Module PyStrFacts.
Import PyStr.

Lemma ascii_compare_refl a : Ascii.compare a a = Eq.
Proof. unfold Ascii.compare. apply N.compare_refl. Qed.

Lemma ascii_compare_lt_trans a b c :
  Ascii.compare a b = Lt -> Ascii.compare b c = Lt -> Ascii.compare a c = Lt.
Proof.
  unfold Ascii.compare. rewrite !N.compare_lt_iff. lia.
Qed.

Lemma compare_refl s : String.compare s s = Eq.
Proof.
  induction s as [|a s IH]; simpl; [reflexivity|].
  now rewrite ascii_compare_refl.
Qed.

Lemma compare_lt_trans s1 : forall s2 s3,
  String.compare s1 s2 = Lt -> String.compare s2 s3 = Lt ->
  String.compare s1 s3 = Lt.
Proof.
  induction s1 as [|a s1 IH]; intros [|b s2] [|c s3]; simpl;
    try discriminate; try reflexivity.
  destruct (Ascii.compare a b) eqn:Eab; try discriminate;
    destruct (Ascii.compare b c) eqn:Ebc; try discriminate; intros H1 H2.
  - apply Ascii.compare_eq_iff in Eab, Ebc. subst.
    rewrite ascii_compare_refl. eauto.
  - apply Ascii.compare_eq_iff in Eab. subst. now rewrite Ebc.
  - apply Ascii.compare_eq_iff in Ebc. subst. now rewrite Eab.
  - now rewrite (ascii_compare_lt_trans _ _ _ Eab Ebc).
Qed.

Lemma lt_trans a b c : lt a b = true -> lt b c = true -> lt a c = true.
Proof.
  unfold lt, String.ltb. intros H1 H2.
  destruct (String.compare a b) eqn:E1; try discriminate.
  destruct (String.compare b c) eqn:E2; try discriminate.
  now rewrite (compare_lt_trans _ _ _ E1 E2).
Qed.

Lemma lt_irrefl a : lt a a = false.
Proof. unfold lt, String.ltb. now rewrite compare_refl. Qed.

(** [not (a < b)] is [b <= a]: the order is total. *)
Lemma lt_false_le a b : lt a b = false <-> le b a = true.
Proof.
  unfold lt, le, String.ltb, String.leb.
  rewrite (String.compare_antisym b a).
  destruct (String.compare a b); simpl; split; congruence.
Qed.

Lemma lt_le a b : lt a b = true -> le a b = true.
Proof.
  unfold lt, le, String.ltb, String.leb.
  destruct (String.compare a b); congruence.
Qed.

Lemma lt_total a b : lt a b = false -> lt b a = false -> a = b.
Proof.
  rewrite !lt_false_le. intros H1 H2. now apply String.leb_antisym.
Qed.

Lemma le_trans a b c : le a b = true -> le b c = true -> le a c = true.
Proof.
  intros H1 H2. apply lt_false_le.
  destruct (lt c a) eqn:E; [|reflexivity].
  apply lt_false_le in H1, H2.
  destruct (lt b a) eqn:Eba; [discriminate|].
  destruct (lt c b) eqn:Ecb; [discriminate|].
  (* c < a, not b < a, not c < b *)
  destruct (lt a b) eqn:Eab.
  - rewrite (lt_trans _ _ _ E Eab) in Ecb. discriminate.
  - rewrite (lt_total _ _ Eab Eba) in E. congruence.
Qed.

(** [a <= b <= c] without [a <= c] is impossible, read on [<]. *)
Lemma lt_false_trans a b c :
  lt a b = false -> lt b c = false -> lt a c = false.
Proof.
  rewrite !lt_false_le. intros H1 H2. exact (le_trans _ _ _ H2 H1).
Qed.

End PyStrFacts.

(* ------------------------------------------------------------------ *)
(** ** [max] and [sorted] *)

Section MaxFacts.
Variables (A K : Type) (key : A -> K) (gt : K -> K -> bool).
Hypothesis gt_irrefl : forall a, gt a a = false.
Hypothesis gt_trans :
  forall a b c, gt a b = true -> gt b c = true -> gt a c = true.
Hypothesis gt_false_trans :
  forall a b c, gt a b = false -> gt b c = false -> gt a c = false.

Lemma max_from_in (rest : list A) : forall best,
  In (PyList.max_from key gt best rest) (best :: rest).
Proof.
  induction rest as [|x rest IH]; intros best; simpl.
  - now left.
  - destruct (IH (if gt (key x) (key best) then x else best)) as [H|H].
    + destruct (gt (key x) (key best)); auto.
    + auto.
Qed.

Lemma max_from_above_start (rest : list A) : forall best,
  gt (key best) (key (PyList.max_from key gt best rest)) = false.
Proof.
  induction rest as [|x rest IH]; intros best; simpl.
  - apply gt_irrefl.
  - specialize (IH (if gt (key x) (key best) then x else best)).
    destruct (gt (key x) (key best)) eqn:E; [|exact IH].
    destruct (gt (key best) (key (PyList.max_from key gt x rest))) eqn:E2;
      [|reflexivity].
    rewrite (gt_trans E E2) in IH. discriminate.
Qed.

Lemma max_from_above_rest (rest : list A) : forall best y,
  In y rest ->
  gt (key y) (key (PyList.max_from key gt best rest)) = false.
Proof.
  induction rest as [|x rest IH]; intros best y Hy; simpl in *; [tauto|].
  destruct Hy as [->|Hy]; [|now apply IH].
  destruct (gt (key y) (key best)) eqn:E.
  - apply max_from_above_start.
  - eapply gt_false_trans; [exact E|]. apply max_from_above_start.
Qed.

(** [max] returns an item of the list whose key no other key exceeds. *)
Lemma py_max_spec (l : list A) :
  l <> [] ->
  exists d, PyList.py_max key gt l = Some d /\ In d l /\
            forall y, In y l -> gt (key y) (key d) = false.
Proof.
  destruct l as [|x rest]; [congruence|]. intros _.
  exists (PyList.max_from key gt x rest). split; [reflexivity|].
  split; [apply max_from_in|].
  intros y [->|Hy].
  - apply max_from_above_start.
  - now apply max_from_above_rest.
Qed.
End MaxFacts.

Section SortedFacts.
Variables (A K : Type) (key : A -> K) (lt : K -> K -> bool).
Hypothesis lt_irrefl : forall a, lt a a = false.
Hypothesis lt_asym : forall a b, lt a b = true -> lt b a = false.
Hypothesis lt_false_trans :
  forall a b c, lt a b = false -> lt b c = false -> lt a c = false.

Lemma insert_sorted_perm x (l : list A) :
  Permutation (x :: l) (PyList.insert_sorted key lt x l).
Proof.
  induction l as [|y l IH]; simpl; [reflexivity|].
  destruct (lt (key y) (key x)); [|reflexivity].
  rewrite perm_swap. now constructor.
Qed.

Lemma sorted_perm (l : list A) : Permutation l (PyList.sorted key lt l).
Proof.
  induction l as [|x l IH]; simpl; [constructor|].
  rewrite <- insert_sorted_perm. now constructor.
Qed.

Lemma insert_sorted_ascending x (l : list A) :
  StronglySorted (PyList.ascending key lt) l ->
  StronglySorted (PyList.ascending key lt) (PyList.insert_sorted key lt x l).
Proof.
  induction 1 as [|y l Hl IH Hy]; simpl.
  - repeat constructor.
  - destruct (lt (key y) (key x)) eqn:E.
    + constructor; [exact IH|].
      rewrite Forall_forall in *. intros z Hz.
      apply Permutation_in with (l' := x :: l) in Hz;
        [|symmetry; apply insert_sorted_perm].
      destruct Hz as [<-|Hz]; [now apply lt_asym|now apply Hy].
    + constructor; [now constructor|].
      constructor; [exact E|].
      rewrite Forall_forall in *. intros z Hz. unfold PyList.ascending.
      eapply lt_false_trans; [apply (Hy z Hz)|exact E].
Qed.

Lemma sorted_ascending (l : list A) :
  StronglySorted (PyList.ascending key lt) (PyList.sorted key lt l).
Proof.
  induction l as [|x l IH]; simpl; [constructor|].
  now apply insert_sorted_ascending.
Qed.

Lemma item_last_ascending (l : list A) :
  StronglySorted (PyList.ascending key lt) l ->
  forall d, PyList.item_last l = Some d ->
  In d l /\ forall c, In c l -> lt (key d) (key c) = false.
Proof.
  induction 1 as [|x l Hl IH Hx]; intros d Hd; [discriminate|].
  destruct l as [|y l].
  - injection Hd as <-. split; [now left|].
    intros c [<-|[]]. apply lt_irrefl.
  - change (PyList.item_last (y :: l) = Some d) in Hd.
    destruct (IH d Hd) as [Hin Hmax]. split; [now right|].
    intros c [<-|Hc]; [|now apply Hmax].
    rewrite Forall_forall in Hx. exact (Hx d Hin).
Qed.

Lemma item_last_some (l : list A) :
  l <> [] -> exists d, PyList.item_last l = Some d.
Proof.
  induction l as [|x l IH]; [congruence|]. intros _.
  destruct l as [|y l]; [now exists x|].
  destruct IH as [d Hd]; [congruence|]. now exists d.
Qed.

(** [sorted(l)[-1]] is an item of [l] below which no key of [l] lies. *)
Lemma sorted_last_spec (l : list A) :
  l <> [] ->
  exists d, PyList.item_last (PyList.sorted key lt l) = Some d /\ In d l /\
            forall c, In c l -> lt (key d) (key c) = false.
Proof.
  intros Hl.
  destruct (item_last_some (l := PyList.sorted key lt l)) as [d Hd].
  { intros E. apply Hl. apply Permutation_nil. rewrite <- E.
    symmetry. apply sorted_perm. }
  exists d. split; [exact Hd|].
  destruct (item_last_ascending (sorted_ascending l) Hd) as [Hin Hmax].
  split.
  - eapply Permutation_in; [symmetry; apply sorted_perm|exact Hin].
  - intros c Hc. apply Hmax.
    eapply Permutation_in; [apply sorted_perm|exact Hc].
Qed.
End SortedFacts.

(* ------------------------------------------------------------------ *)
(** ** The choice of the newest candidate *)

Lemma pair_gt_irrefl k : pair_gt k k = false.
Proof.
  unfold pair_gt. rewrite N.eqb_refl. apply PyStrFacts.lt_irrefl.
Qed.

Lemma pair_gt_trans a b c :
  pair_gt a b = true -> pair_gt b c = true -> pair_gt a c = true.
Proof.
  destruct a as [ta na], b as [tb nb], c as [tc nc]. unfold pair_gt; simpl.
  destruct (N.eqb_spec ta tb), (N.eqb_spec tb tc), (N.eqb_spec ta tc);
    rewrite ?N.ltb_lt; try lia; intros H1 H2.
  exact (PyStrFacts.lt_trans _ _ _ H2 H1).
Qed.

Lemma pair_gt_false_trans a b c :
  pair_gt a b = false -> pair_gt b c = false -> pair_gt a c = false.
Proof.
  destruct a as [ta na], b as [tb nb], c as [tc nc]. unfold pair_gt; simpl.
  destruct (N.eqb_spec ta tb), (N.eqb_spec tb tc), (N.eqb_spec ta tc);
    rewrite ?N.ltb_ge; try lia; intros H1 H2.
  exact (PyStrFacts.lt_false_trans _ _ _ H2 H1).
Qed.

Lemma existsb_truthy_has_mtime (l : list candidate) :
  existsb (fun c => truthy (c_mdtm c)) l = true <-> has_mtime l.
Proof.
  rewrite existsb_exists. unfold has_mtime.
  split; intros [c [Hc Hm]]; exists c; split; auto;
    destruct (c_mdtm c); simpl in *; congruence.
Qed.

Lemma existsb_truthy_none (l : list candidate) :
  (forall c, In c l -> c_mdtm c = None) ->
  existsb (fun c => truthy (c_mdtm c)) l = false.
Proof.
  intros H. destruct (existsb _ l) eqn:E; [|reflexivity].
  apply existsb_exists in E. destruct E as [c [Hc Hm]].
  rewrite (H c Hc) in Hm. discriminate.
Qed.

(** When some candidate has a modification time, the choice carries the
    greatest key of line 117. *)
Lemma newest_greatest_key (l : list candidate) :
  has_mtime l ->
  exists d, newest l = Some d /\ greatest_key l d.
Proof.
  intros H. unfold newest.
  rewrite (proj2 (existsb_truthy_has_mtime l) H).
  destruct (@py_max_spec _ _ key_mtime_name pair_gt pair_gt_irrefl
              pair_gt_trans pair_gt_false_trans l) as [d [Hd [Hin Hmax]]].
  { destruct H as [c [Hc _]]. intros ->. exact Hc. }
  exists d. split; [exact Hd|]. split; assumption.
Qed.

(** With no modification time at all, the choice carries the greatest
    name. *)
Lemma newest_greatest_name (l : list candidate) :
  l <> [] ->
  (forall c, In c l -> c_mdtm c = None) ->
  exists d, newest l = Some d /\ greatest_name l d.
Proof.
  intros Hl H. unfold newest. rewrite (existsb_truthy_none l H).
  destruct (@sorted_last_spec _ _ c_name PyStr.lt PyStrFacts.lt_irrefl
              (fun a b (E : PyStr.lt a b = true) =>
                 proj2 (PyStrFacts.lt_false_le b a) (PyStrFacts.lt_le a b E))
              PyStrFacts.lt_false_trans l Hl) as [d [Hd [Hin Hmax]]].
  exists d. split; [exact Hd|]. split; [exact Hin|].
  intros c Hc. apply PyStrFacts.lt_false_le. now apply Hmax.
Qed.




(** C2: for every non-empty list of candidate descriptors none of which
    has a modification time, the selection returns the descriptor with the
    lexicographically greatest filename; given report_2024.csv and
    report_2025.csv, both without modification time and in either order, it
    selects report_2025.csv. *)
Theorem newest_without_mtime :
  (forall l : list candidate,
      l <> [] ->
      (forall c, In c l -> c_mdtm c = None) ->
      exists d, newest l = Some d /\ greatest_name l d)
  /\ (forall s1 s2,
         newest [Candidate "report_2024.csv" None s1;
                 Candidate "report_2025.csv" None s2]
         = Some (Candidate "report_2025.csv" None s2))
  /\ (forall s1 s2,
         newest [Candidate "report_2025.csv" None s2;
                 Candidate "report_2024.csv" None s1]
         = Some (Candidate "report_2025.csv" None s2)).
Proof.
  split; [exact newest_greatest_name|].
  split; intros s1 s2; reflexivity.
Qed.

Lemma newest_without_mtime_witness :
  exists d,
    newest [Candidate "x.txt" None None; Candidate "y.csv" None (Some 3%Z);
            Candidate "m.xls" None None] = Some d /\
    greatest_name [Candidate "x.txt" None None;
                   Candidate "y.csv" None (Some 3%Z);
                   Candidate "m.xls" None None] d.
Proof.
  apply (proj1 newest_without_mtime).
  - discriminate.
  - intros c [<-|[<-|[<-|[]]]]; reflexivity.
Defined.

(* ------------------------------------------------------------------ *)
(** ** The size plays no part in the choice *)

Lemma same_but_size_key a b :
  same_but_size a b -> key_mtime_name a = key_mtime_name b.
Proof. intros [Hn Hm]. unfold key_mtime_name. now rewrite Hn, Hm. Qed.

Lemma existsb_same_but_size l1 l2 :
  Forall2 same_but_size l1 l2 ->
  existsb (fun c => truthy (c_mdtm c)) l1
  = existsb (fun c => truthy (c_mdtm c)) l2.
Proof.
  induction 1 as [|a b l1 l2 [_ Hm] _ IH]; simpl; [reflexivity|].
  now rewrite Hm, IH.
Qed.

Lemma max_from_same_but_size r1 r2 :
  Forall2 same_but_size r1 r2 ->
  forall b1 b2, same_but_size b1 b2 ->
  same_but_size (PyList.max_from key_mtime_name pair_gt b1 r1)
                (PyList.max_from key_mtime_name pair_gt b2 r2).
Proof.
  induction 1 as [|x1 x2 r1 r2 Hx _ IH]; intros b1 b2 Hb; simpl; [exact Hb|].
  apply IH.
  rewrite (same_but_size_key Hx), (same_but_size_key Hb).
  now destruct (pair_gt _ _).
Qed.

Lemma insert_sorted_same_but_size l1 l2 x1 x2 :
  same_but_size x1 x2 ->
  Forall2 same_but_size l1 l2 ->
  Forall2 same_but_size (PyList.insert_sorted c_name PyStr.lt x1 l1)
                        (PyList.insert_sorted c_name PyStr.lt x2 l2).
Proof.
  intros Hx. induction 1 as [|y1 y2 l1 l2 Hy Hl IH]; simpl.
  - constructor; [exact Hx|constructor].
  - rewrite (proj1 Hx), (proj1 Hy).
    destruct (PyStr.lt _ _).
    + constructor; [exact Hy|exact IH].
    + constructor; [exact Hx|]. constructor; [exact Hy|exact Hl].
Qed.

Lemma sorted_same_but_size l1 l2 :
  Forall2 same_but_size l1 l2 ->
  Forall2 same_but_size (PyList.sorted c_name PyStr.lt l1)
                        (PyList.sorted c_name PyStr.lt l2).
Proof.
  induction 1; simpl; [constructor|].
  now apply insert_sorted_same_but_size.
Qed.

Lemma item_last_same_but_size l1 l2 :
  Forall2 same_but_size l1 l2 ->
  option_map c_name (PyList.item_last l1)
  = option_map c_name (PyList.item_last l2).
Proof.
  induction 1 as [|x1 x2 l1 l2 Hx Hl IH]; [reflexivity|].
  destruct Hl as [|y1 y2 l1 l2 Hy Hl].
  - simpl. now rewrite (proj1 Hx).
  - exact IH.
Qed.

(** C10: the selection does not depend on the sizes: for two candidate
    lists that agree, position by position, on name and modification time,
    the selections have the same filename, in the timestamp branch and in
    the name branch alike. *)
Theorem newest_ignores_size (l1 l2 : list candidate) :
  Forall2 same_but_size l1 l2 ->
  option_map c_name (newest l1) = option_map c_name (newest l2).
Proof.
  intros H. unfold newest. rewrite (existsb_same_but_size H).
  destruct (existsb _ l2).
  - destruct H as [|x1 x2 l1 l2 Hx Hl]; [reflexivity|]. simpl.
    now rewrite (proj1 (max_from_same_but_size Hl Hx)).
  - apply item_last_same_but_size. now apply sorted_same_but_size.
Qed.

Lemma newest_ignores_size_witness :
  option_map c_name
    (newest [Candidate "a.csv" (Some 7%N) (Some 10%Z);
             Candidate "b.csv" None (Some 20%Z)])
  = option_map c_name
      (newest [Candidate "a.csv" (Some 7%N) None;
               Candidate "b.csv" None (Some 999%Z)]).
Proof.
  apply newest_ignores_size.
  repeat constructor.
Defined.

(* ------------------------------------------------------------------ *)
(** ** The frame that is written *)

Lemma length_map_typed f (r : list cell) : forall dts,
  List.length (map_typed f dts r) = List.length r.
Proof.
  induction r as [|c r IH]; intros dts; cbn; [reflexivity|].
  now rewrite IH.
Qed.

Lemma map_typed_compose f g (r : list cell) : forall dts,
  map_typed f dts (map_typed g dts r)
  = map_typed (fun d c => f d (g d c)) dts r.
Proof.
  induction r as [|c r IH]; intros dts; cbn; [reflexivity|].
  now rewrite IH.
Qed.

Lemma map_typed_firstn f (n : nat) : forall dts (r : list cell),
  map_typed f (firstn n dts) (firstn n r) = firstn n (map_typed f dts r).
Proof.
  induction n as [|n IH]; intros dts r; [reflexivity|].
  destruct r as [|c r]; [now destruct dts|].
  destruct dts as [|d dts]; cbn [firstn map_typed hd tl].
  - f_equal. rewrite <- (IH [] r). now rewrite firstn_nil.
  - f_equal. apply IH.
Qed.

(** Each cell is mapped with the dtype recorded at its own position. *)
Lemma nth_error_map_typed f (r : list cell) : forall dts j,
  nth_error (map_typed f dts r) j
  = option_map (f (nth j dts OtherDtype)) (nth_error r j).
Proof.
  induction r as [|c r IH]; intros dts j; cbn.
  - now destruct j.
  - destruct j as [|j]; cbn.
    + now destruct dts.
    + rewrite IH. now destruct dts; [destruct j|].
Qed.

Lemma map_typed_other f (r : list cell) : forall dts,
  Forall (fun d => d = OtherDtype) dts ->
  map_typed f dts r = map (f OtherDtype) r.
Proof.
  induction r as [|c r IH]; intros dts H; cbn; [reflexivity|].
  rewrite IH; [|destruct H; [constructor|assumption]].
  now destruct H as [|d dts -> H].
Qed.

Lemma sanitize_rows (df : DataFrame) :
  rows (sanitize df) = map (map_typed sanitize_cell (dtypes df)) (rows df).
Proof.
  unfold sanitize, fillna_empty, replace_inf_none, map_cells.
  cbn [rows dtypes].
  rewrite map_map. apply map_ext. intros r.
  rewrite map_typed_compose. reflexivity.
Qed.

Lemma sanitize_columns (df : DataFrame) : columns (sanitize df) = columns df.
Proof. reflexivity. Qed.


Lemma truncate_columns_wide (df : DataFrame) :
  (MAX_COLS < List.length (columns df))%nat ->
  truncate_columns df = iloc_cols MAX_COLS df.
Proof.
  intros H. unfold truncate_columns, shape; simpl.
  now rewrite (proj2 (Nat.ltb_lt _ _) H).
Qed.

Lemma normalize_wide (str_of : cell -> string) (df : DataFrame) :
  (MAX_COLS < List.length (columns df))%nat ->
  normalize str_of df
  = map (fun c => Str (str_of c)) (firstn MAX_COLS (columns df))
    :: map (fun r => map_typed sanitize_cell (firstn MAX_COLS (dtypes df))
                               (firstn MAX_COLS r))
           (rows df).
Proof.
  intros H. unfold normalize, values_of.
  rewrite sanitize_rows, sanitize_columns, (truncate_columns_wide df H).
  unfold iloc_cols. cbn [columns dtypes rows]. now rewrite map_map.
Qed.

(** C6: for every parsed table with more than 26 columns, normalization
    yields a table of exactly 26 columns: the header is made of the labels
    at positions 0..25, every data row of the cells at positions 0..25,
    each passed through line 136 with the dtype of its column, and the
    result is the same for any two tables that agree on the columns at
    those positions, so that no cell of a column of index 26 or more
    reaches it. *)
Theorem normalize_keeps_first_26 (str_of : cell -> string) (df : DataFrame) :
  well_formed df ->
  (26 < List.length (columns df))%nat ->
  snd (shape (truncate_columns df)) = 26%nat
  /\ Forall (fun r => List.length r = 26%nat) (normalize str_of df)
  /\ normalize str_of df
     = map (fun c => Str (str_of c)) (firstn 26 (columns df))
       :: map (fun r => map_typed sanitize_cell (firstn 26 (dtypes df))
                                  (firstn 26 r))
              (rows df)
  /\ (forall df' : DataFrame,
         (26 < List.length (columns df'))%nat ->
         firstn 26 (columns df') = firstn 26 (columns df) ->
         firstn 26 (dtypes df') = firstn 26 (dtypes df) ->
         map (firstn 26) (rows df') = map (firstn 26) (rows df) ->
         normalize str_of df' = normalize str_of df).
Proof.
  intros Hwf Hwide. change 26%nat with MAX_COLS in *.
  split; [|split; [|split]].
  - rewrite (truncate_columns_wide df Hwide).
    unfold shape, iloc_cols. cbn [snd columns].
    rewrite length_firstn. lia.
  - rewrite (normalize_wide str_of df Hwide). constructor.
    + rewrite length_map, length_firstn. lia.
    + rewrite Forall_map. unfold well_formed in Hwf.
      rewrite Forall_forall in *. intros r Hr.
      rewrite length_map_typed, length_firstn, (Hwf r Hr). lia.
  - exact (normalize_wide str_of df Hwide).
  - intros df' Hwide' Hcols Hdts Hrows.
    rewrite (normalize_wide str_of df Hwide).
    rewrite (normalize_wide str_of df' Hwide').
    rewrite Hcols, Hdts. f_equal.
    rewrite <- (map_map (firstn MAX_COLS)
                  (map_typed sanitize_cell (firstn MAX_COLS (dtypes df)))
                  (rows df')).
    rewrite <- (map_map (firstn MAX_COLS)
                  (map_typed sanitize_cell (firstn MAX_COLS (dtypes df)))
                  (rows df)).
    now rewrite Hrows.
Qed.

Lemma normalize_keeps_first_26_witness :
  well_formed wide_frame /\
  normalize (str_of fake_lib) wide_frame
  = map (fun c => Str (str_of fake_lib c)) (firstn 26 (columns wide_frame))
    :: map (fun r => map_typed sanitize_cell (firstn 26 (dtypes wide_frame))
                               (firstn 26 r))
           (rows wide_frame).
Proof.
  assert (Hwf : well_formed wide_frame) by (repeat constructor).
  split; [exact Hwf|].
  refine (proj1 (proj2 (proj2
            (normalize_keeps_first_26 (str_of fake_lib) Hwf _)))).
  vm_compute. lia.
Defined.




(* ------------------------------------------------------------------ *)
(** ** Which calls a piece of the script can make *)

Create HintDb emits.

Section EmitsFacts.
Variable W : Type.
Variable p : call -> bool.

Lemma emits_ret (A : Type) (a : A) : emits p (ret (W := W) a).
Proof.
  intros s r s' H. injection H as <- <-. exists [].
  now rewrite app_nil_r.
Qed.

Lemma emits_raise (A : Type) (e : exn) : emits p (raise (W := W) (A := A) e).
Proof.
  intros s r s' H. injection H as <- <-. exists [].
  now rewrite app_nil_r.
Qed.

Lemma emits_perform (A : Type) (c : call) (op : W -> (exn + A) * W) :
  p c = true -> emits p (perform c op).
Proof.
  intros Hc s r s' H. unfold perform in H.
  destruct (op (world s)) as [r0 w]. injection H as <- <-.
  exists [Event c (raised r0)]. split; [reflexivity|].
  unfold only, on_call; simpl. now rewrite Hc.
Qed.

Lemma emits_evaluate (A : Type) (c : call) (r : exn + A) :
  p c = true -> emits p (evaluate (W := W) c r).
Proof. intros Hc. now apply emits_perform. Qed.

Lemma emits_bind (A B : Type) (m : M W A) (k : A -> M W B) :
  emits p m -> (forall a, emits p (k a)) -> emits p (bind m k).
Proof.
  intros Hm Hk s r s' H. unfold bind in H.
  destruct (m s) as [[e|a] s1] eqn:E.
  - injection H as <- <-. exact (Hm _ _ _ E).
  - destruct (Hm _ _ _ E) as [evs1 [H1 P1]].
    destruct (Hk a _ _ _ H) as [evs2 [H2 P2]].
    exists (evs1 ++ evs2). split.
    + now rewrite H2, H1, app_assoc.
    + unfold only in *. now rewrite forallb_app, P1, P2.
Qed.

Lemma emits_try_except (A : Type) (m : M W A) (h : exn -> M W A) :
  emits p m -> (forall e, emits p (h e)) -> emits p (try_except m h).
Proof.
  intros Hm Hh s r s' H. unfold try_except in H.
  destruct (m s) as [[e|a] s1] eqn:E.
  - destruct (Hm _ _ _ E) as [evs1 [H1 P1]].
    destruct (Hh e _ _ _ H) as [evs2 [H2 P2]].
    exists (evs1 ++ evs2). split.
    + now rewrite H2, H1, app_assoc.
    + unfold only in *. now rewrite forallb_app, P1, P2.
  - injection H as <- <-. exact (Hm _ _ _ E).
Qed.
End EmitsFacts.

#[local] Hint Resolve emits_ret emits_raise emits_bind emits_try_except
  : emits.
#[local] Hint Extern 1 (emits _ (perform _ _)) =>
  apply emits_perform; reflexivity : emits.
#[local] Hint Extern 1 (emits _ (evaluate _ _)) =>
  apply emits_evaluate; reflexivity : emits.

(** Split the branches of the script until the hints above apply. *)
Ltac emits_cases :=
  repeat match goal with
         | |- emits _ (if ?b then _ else _) => destruct b
         | |- emits _ (match ?x with _ => _ end) => destruct x
         end.

Section ScriptEmits.
Variable W : Type.
Variable remote : Remote W.
Variable lib : PyLib.
Variable cfg : config.

Lemma get_mdtm_emits (name : string) : emits is_ftp (get_mdtm remote lib name).
Proof.
  unfold get_mdtm.
  apply emits_try_except; [|auto with emits].
  apply emits_bind; [auto with emits|]. intros resp.
  emits_cases; auto with emits.
Qed.

Lemma names_of_lines_emits (lines : list string) :
  emits is_ftp (names_of_lines (W := W) lines).
Proof.
  induction lines as [|ln rest IH]; simpl; [auto with emits|].
  emits_cases; auto with emits.
Qed.

Lemma list_names_emits : emits is_ftp (list_names remote).
Proof.
  unfold list_names.
  apply emits_try_except; [auto with emits|]. intros _.
  apply emits_bind; [auto with emits|]. intros lines.
  apply names_of_lines_emits.
Qed.

Lemma collect_emits (names : list string) :
  emits is_ftp (collect remote lib names).
Proof.
  induction names as [|n rest IH]; simpl; [auto with emits|].
  emits_cases; auto.
  apply emits_bind.
  - apply emits_try_except; auto with emits.
  - intros [size|]; [|exact IH].
    apply emits_bind; [apply get_mdtm_emits|]. intros mdtm.
    apply emits_bind; [exact IH|]. auto with emits.
Qed.

Lemma fetch_candidates_emits : emits is_ftp (fetch_candidates remote lib cfg).
Proof.
  unfold fetch_candidates.
  repeat (apply emits_bind; [auto with emits|]; intros _).
  apply emits_bind; [apply list_names_emits|]. intros names.
  apply collect_emits.
Qed.

Lemma load_df_from_bytes_emits (filename : string) (data : bytes) :
  emits is_parse (load_df_from_bytes (W := W) lib filename data).
Proof.
  unfold load_df_from_bytes.
  apply emits_try_except.
  - emits_cases; auto with emits.
  - intros e. auto with emits.
Qed.
End ScriptEmits.

(* ------------------------------------------------------------------ *)
(** ** Parsing *)

Lemma excel_ext_not_text (ext : string) :
  PyStr.mem ext [".xls"; ".xlsx"] = true ->
  PyStr.mem ext [".csv"; ".txt"] = false.
Proof.
  unfold PyStr.mem; simpl. rewrite !orb_false_r. intros H.
  apply orb_true_iff in H.
  destruct H as [H|H]; apply String.eqb_eq in H; subst; reflexivity.
Qed.

(** C4 (as amended): for every spreadsheet-binary input (extension .xls or
    .xlsx), if the spreadsheet-binary parse of the raw bytes fails, the
    parser retries once, reading the same bytes as delimited text under the
    latin1 encoding: it makes exactly these two parser calls, returns the
    table of the retry when the retry succeeds, and raises the exception of
    the retry when it fails. *)
Theorem excel_failure_retries_latin1
  (W : Type) (lib : PyLib) (filename : string) (data : bytes)
  (e : exn) (s : state W) :
  PyStr.mem (PyStr.lower (PyStr.splitext_ext filename)) [".xls"; ".xlsx"]
  = true ->
  read_excel lib data = inl e ->
  load_df_from_bytes lib filename data s
  = (read_csv lib (Some "latin1") data,
     {| world := world s;
        calls := calls s ++
                 [Event ReadExcel (Some e);
                  Event (ReadCsv (Some "latin1"))
                        (raised (read_csv lib (Some "latin1") data))] |}).
Proof.
  intros Hext Hfail.
  unfold load_df_from_bytes, try_except, evaluate, perform.
  rewrite (excel_ext_not_text _ Hext), Hext, Hfail. simpl.
  rewrite <- app_assoc. simpl.
  now destruct (read_csv lib (Some "latin1") data).
Qed.

Lemma excel_failure_retries_latin1_witness :
  load_df_from_bytes fake_lib "Book.XLS" [] {| world := tt; calls := [] |}
  = (inr fake_frame,
     {| world := tt;
        calls := [Event ReadExcel (Some (Error "ValueError"));
                  Event (ReadCsv (Some "latin1")) None] |}).
Proof.
  apply (@excel_failure_retries_latin1 unit fake_lib "Book.XLS" []
           (Error "ValueError") {| world := tt; calls := [] |});
    reflexivity.
Defined.

(** C4 as stated fails: for a file named .xlsx whose bytes the Excel
    reader rejects and the CSV reader accepts, the parser makes a latin1
    attempt and returns its table instead of raising. *)
Lemma excel_failure_not_final_counterexample :
  PyStr.mem (PyStr.lower (PyStr.splitext_ext "book.xlsx")) [".xls"; ".xlsx"]
  = true /\
  read_excel fake_lib [] = inl (Error "ValueError") /\
  load_df_from_bytes fake_lib "book.xlsx" [] {| world := tt; calls := [] |}
  = (inr fake_frame,
     {| world := tt;
        calls := [Event ReadExcel (Some (Error "ValueError"));
                  Event (ReadCsv (Some "latin1")) None] |}) /\
  ~ excel_failure_final fake_lib "book.xlsx" []
      {| world := tt; calls := [] |}.
Proof.
  repeat split.
  intros H. destruct (H (Error "ValueError") eq_refl) as [[e' He'] _].
  discriminate He'.
Qed.

(* ------------------------------------------------------------------ *)
(** ** The shape of a run *)

Lemma only_app (p : call -> bool) (l1 l2 : list event) :
  only p (l1 ++ l2) = only p l1 && only p l2.
Proof. apply forallb_app. Qed.

Lemma only_weaken (p q : call -> bool) (l : list event) :
  (forall c, p c = true -> q c = true) ->
  only p l = true -> only q l = true.
Proof.
  intros Hpq. unfold only. rewrite !forallb_forall.
  intros H e He. apply Hpq. now apply H.
Qed.

Lemma only_find_none (p q : call -> bool) (l : list event) :
  (forall c, p c = true -> q c = false) ->
  only p l = true -> find (on_call q) l = None.
Proof.
  intros Hpq H. induction l as [|e l IH]; [reflexivity|].
  unfold only in H. simpl in *. apply andb_true_iff in H. destruct H as [He Hl].
  unfold on_call in *. rewrite (Hpq _ He). now apply IH.
Qed.

Lemma only_filter_nil (p q : call -> bool) (l : list event) :
  (forall c, p c = true -> q c = false) ->
  only p l = true -> filter (on_call q) l = [].
Proof.
  intros Hpq H. induction l as [|e l IH]; [reflexivity|].
  unfold only in H. simpl in *. apply andb_true_iff in H. destruct H as [He Hl].
  unfold on_call in *. rewrite (Hpq _ He). now apply IH.
Qed.

Lemma only_existsb_false (p q : call -> bool) (l : list event) :
  (forall c, p c = true -> q c = false) ->
  only p l = true -> existsb (on_call q) l = false.
Proof.
  intros Hpq H. induction l as [|e l IH]; [reflexivity|].
  unfold only in H. simpl in *. apply andb_true_iff in H. destruct H as [He Hl].
  unfold on_call in *. rewrite (Hpq _ He). now apply IH.
Qed.

Lemma find_app_none (A : Type) (f : A -> bool) (l1 l2 : list A) :
  find f l1 = None -> find f (l1 ++ l2) = find f l2.
Proof.
  induction l1 as [|x l1 IH]; simpl; [reflexivity|].
  destruct (f x); [discriminate|exact IH].
Qed.

Section RunShape.
Variable W : Type.
Variable remote : Remote W.
Variable lib : PyLib.
Variable cfg : config.

Local Open Scope run_scope.

Lemma bind_inv (A B : Type) (m : M W A) (k : A -> M W B) s r s' :
  bind m k s = (r, s') ->
  (exists e, m s = (inl e, s') /\ r = inl e) \/
  (exists a s1, m s = (inr a, s1) /\ k a s1 = (r, s')).
Proof.
  unfold bind. destruct (m s) as [[e|a] s1]; intros H.
  - left. exists e. now injection H as <- <-.
  - right. now exists a, s1.
Qed.

Lemma perform_inv (A : Type) (c : call) (op : W -> (exn + A) * W) s r s' :
  perform c op s = (r, s') ->
  calls s' = calls s ++ [Event c (raised r)].
Proof.
  unfold perform. destruct (op (world s)) as [r0 w].
  now intros H; injection H as <- <-.
Qed.

Lemma try_except_reraise (A : Type) (m : M W A) s :
  try_except m (fun exc => raise exc) s = m s.
Proof. unfold try_except, raise. now destruct (m s) as [[e|a] s1]. Qed.

Lemma open_worksheet_emits (values : list (list cell)) :
  emits is_setup (open_worksheet remote cfg values).
Proof.
  unfold open_worksheet.
  apply emits_bind; [auto with emits|]. intros _ s r s' H.
  destruct (perform (GetWorksheet (WORKSHEET_NAME cfg))
              (sh_worksheet remote (WORKSHEET_NAME cfg)) s)
    as [r1 s1] eqn:E1.
  pose proof (perform_inv _ _ _ E1) as H1.
  destruct r1 as [[|what]|ws].
  - pose proof (perform_inv _ _ _ H) as H2.
    eexists. split; [rewrite H2, H1, <- app_assoc; reflexivity|reflexivity].
  - injection H as <- <-. eexists. split; [exact H1|reflexivity].
  - injection H as <- <-. eexists. split; [exact H1|reflexivity].
Qed.

Lemma step1_clear_emits (ws : worksheet) :
  emits is_setup (step1_clear remote ws).
Proof. unfold step1_clear. auto with emits. Qed.

Lemma ensure_rows_emits (ws : worksheet) (values : list (list cell)) :
  emits is_setup (ensure_rows remote ws values).
Proof. unfold ensure_rows. emits_cases; auto with emits. Qed.

(** Steps 2 to 5 stop at the first call that raises. *)
Lemma steps_2_to_5_shape (filename : string) (values : list (list cell))
      s r s' :
  values <> [] ->
  (step2_paste remote values ;;
   step3_insert_blank remote ;;
   step4_timestamp remote ;;
   step5_source remote filename) s = (r, s') ->
  exists evs, calls s' = calls s ++ evs /\ steps_2_to_5 filename values r evs.
Proof.
  intros Hv. destruct values as [|row rest]; [congruence|].
  unfold step2_paste, step3_insert_blank, step4_timestamp, step5_source.
  unfold bind, perform. cbn [map].
  destruct (ws_update remote START_CELL _ (world s)) as [[e|[]] w1];
    cbn [world calls].
  { intros H; injection H as <- <-. eexists. split; [reflexivity|].
    apply Write_raised. }
  destruct (ws_insert_row remote _ 1 w1) as [[e|[]] w2]; cbn [world calls].
  { intros H; injection H as <- <-. eexists.
    split; [cbn [calls]; rewrite <- app_assoc; reflexivity|].
    apply Insert_raised. }
  destruct (zoneinfo remote _ w2) as [[e|[]] w2']; cbn [world calls].
  { intros H; injection H as <- <-. eexists.
    split; [cbn [calls]; rewrite <- !app_assoc; reflexivity|].
    apply Zone_raised. }
  destruct (now_strftime remote w2') as [timestamp w3]; cbn [world calls].
  destruct (ws_update remote "A1" [[Str timestamp]] w3) as [[e|[]] w4];
    cbn [world calls].
  { intros H; injection H as <- <-. eexists.
    split; [cbn [calls]; rewrite <- !app_assoc; reflexivity|].
    apply Timestamp_raised. }
  destruct (ws_update remote "D1" _ w4) as [[e|[]] w5]; cbn [world calls].
  { intros H; injection H as <- <-. eexists.
    split; [cbn [calls]; rewrite <- !app_assoc; reflexivity|].
    apply Source_raised. }
  intros H; injection H as <- <-. eexists.
  split; [cbn [calls]; rewrite <- !app_assoc; reflexivity|].
  apply Completed.
Qed.

Lemma publish_shape (filename : string) (values : list (list cell)) s r s' :
  values <> [] ->
  publish remote cfg filename values s = (r, s') ->
  exists setup,
    only is_setup setup = true /\
    ((exists e, r = inl e /\ calls s' = calls s ++ setup) \/
     (exists evs, calls s' = calls s ++ setup ++ evs /\
                  steps_2_to_5 filename values r evs)).
Proof.
  intros Hv H. unfold publish in H.
  apply bind_inv in H. destruct H as [[e [H ->]]|[ws [s1 [H1 H]]]].
  { apply open_worksheet_emits in H as [evs [Hc Ho]].
    exists evs. split; [exact Ho|]. left. now exists e. }
  apply open_worksheet_emits in H1 as [evs1 [Hc1 Ho1]].
  apply bind_inv in H. destruct H as [[e [H ->]]|[[] [s2 [H2 H]]]].
  { apply step1_clear_emits in H as [evs [Hc Ho]].
    exists (evs1 ++ evs). split; [now rewrite only_app, Ho1, Ho|].
    left. exists e. split; [reflexivity|]. now rewrite Hc, Hc1, app_assoc. }
  apply step1_clear_emits in H2 as [evs2 [Hc2 Ho2]].
  apply bind_inv in H. destruct H as [[e [H ->]]|[[] [s3 [H3 H]]]].
  { apply ensure_rows_emits in H as [evs [Hc Ho]].
    exists (evs1 ++ evs2 ++ evs).
    split; [now rewrite !only_app, Ho1, Ho2, Ho|].
    left. exists e. split; [reflexivity|].
    now rewrite Hc, Hc2, Hc1, <- !app_assoc. }
  apply ensure_rows_emits in H3 as [evs3 [Hc3 Ho3]].
  apply steps_2_to_5_shape in H; [|exact Hv].
  destruct H as [evs [Hc Hs]].
  exists (evs1 ++ evs2 ++ evs3).
  split; [now rewrite !only_app, Ho1, Ho2, Ho3|].
  right. exists evs. split; [|exact Hs].
  now rewrite Hc, Hc3, Hc2, Hc1, <- !app_assoc.
Qed.

Lemma only_ftp_before (l : list event) :
  only is_ftp l = true -> only is_before_write l = true.
Proof.
  apply only_weaken. intros c H. unfold is_before_write, is_input.
  now rewrite H.
Qed.

Lemma only_parse_before (l : list event) :
  only is_parse l = true -> only is_before_write l = true.
Proof.
  apply only_weaken. intros c H. unfold is_before_write, is_input.
  rewrite H. now rewrite orb_true_r.
Qed.

Lemma only_setup_before (l : list event) :
  only is_setup l = true -> only is_before_write l = true.
Proof.
  apply only_weaken. intros c H. unfold is_before_write.
  rewrite H. now rewrite orb_true_r.
Qed.

Lemma only_ftp_input (l : list event) :
  only is_ftp l = true -> only is_input l = true.
Proof.
  apply only_weaken. intros c H. unfold is_input. now rewrite H.
Qed.


(** A run either stops before the data write, having returned only if it
    made no call to the spreadsheet service, or downloads a file, gets
    through the setup calls and runs steps 2 to 5 on that file. *)
Lemma run_shape (w : W) r s :
  run remote lib cfg w = (r, s) ->
  (only is_before_write (calls s) = true /\
   (r = inr tt -> only is_input (calls s) = true))
  \/
  (exists pre filename values evs,
      calls s = pre ++ evs /\
      only is_before_write pre = true /\
      In (Event (FtpRetrbinary ("RETR " ++ filename)) None) pre /\
      steps_2_to_5 filename values r evs).
Proof.
  unfold run, main. rewrite try_except_reraise. intros H.
  apply bind_inv in H. destruct H as [[e [H ->]]|[cands [s1 [H1 H]]]].
  { apply fetch_candidates_emits in H as [evs [Hc Ho]].
    simpl in Hc. left. rewrite Hc.
    split; [now apply only_ftp_before|discriminate]. }
  apply fetch_candidates_emits in H1 as [evs1 [Hc1 Ho1]].
  simpl in Hc1. unfold process in H.
  destruct cands as [|c cs].
  { apply perform_inv in H. left. rewrite H, Hc1.
    assert (Hq : only is_ftp (evs1 ++ [Event FtpQuit (raised r)]) = true)
      by now rewrite only_app, Ho1.
    split; intros; [now apply only_ftp_before|now apply only_ftp_input]. }
  destruct (newest (c :: cs)) as [t|].
  2:{ injection H as <- <-. left. rewrite Hc1.
      split; [now apply only_ftp_before|discriminate]. }
  apply bind_inv in H. destruct H as [[e [H ->]]|[data [s2 [H2 H]]]].
  { apply perform_inv in H. left. rewrite H, Hc1.
    split; [|discriminate]. apply only_ftp_before.
    now rewrite only_app, Ho1. }
  apply perform_inv in H2. simpl in H2. rewrite Hc1 in H2.
  apply bind_inv in H. destruct H as [[e [H ->]]|[[] [s3 [H3 H]]]].
  { apply perform_inv in H. left. rewrite H, H2.
    split; [|discriminate]. apply only_ftp_before.
    now rewrite !only_app, Ho1. }
  apply perform_inv in H3. simpl in H3. rewrite H2 in H3.
  assert (Ho3 : only is_before_write (calls s3) = true).
  { rewrite H3. apply only_ftp_before. now rewrite !only_app, Ho1. }
  assert (Hin3 : In (Event (FtpRetrbinary ("RETR " ++ c_name t)) None)
                    (calls s3)).
  { rewrite H3. apply in_or_app. left. apply in_or_app. right. now left. }
  clear H2 H3 Hc1 Ho1.
  apply bind_inv in H. destruct H as [[e [H ->]]|[df [s4 [H4 H]]]].
  { apply load_df_from_bytes_emits in H as [evs [Hc Ho]].
    left. rewrite Hc. split; [|discriminate].
    rewrite only_app, Ho3. now apply only_parse_before. }
  apply load_df_from_bytes_emits in H4 as [evs4 [Hc4 Ho4]].
  assert (Hv : normalize (str_of lib) df <> []) by discriminate.
  apply publish_shape in H; [|exact Hv].
  destruct H as [setup [Hs [[e [-> Hc]]|[evs [Hc Ht]]]]].
  - left. rewrite Hc, Hc4. split; [|discriminate].
    rewrite !only_app, Ho3.
    rewrite (only_parse_before _ Ho4). now apply only_setup_before.
  - right. exists (calls s3 ++ evs4 ++ setup), (c_name t),
      (normalize (str_of lib) df), evs.
    split; [now rewrite Hc, Hc4, <- !app_assoc|].
    split; [|split; [|exact Ht]].
    + rewrite !only_app, Ho3.
      rewrite (only_parse_before _ Ho4). now apply only_setup_before.
    + apply in_or_app. now left.
Qed.
End RunShape.

(* ------------------------------------------------------------------ *)
(** ** Failure of the data write *)

Lemma before_write_not_update c :
  is_before_write c = true -> is_update c = false.
Proof. now destruct c. Qed.

Lemma before_write_not_insert c :
  is_before_write c = true -> is_insert_row c = false.
Proof. now destruct c. Qed.

Lemma before_write_not_now c : is_before_write c = true -> is_clock c = false.
Proof. now destruct c. Qed.

Lemma input_not_sheet c : is_input c = true -> is_sheet c = false.
Proof. now destruct c. Qed.

(** C3: for every run in which a clear of the write window returned and the
    data write of step 2 (the first [ws.update] call of the run) raised,
    [main] raises that exception, so that the process ends with status 1,
    and the run holds no [insert_row] call, no reading of the clock and no
    [ws.update] call other than the failed data write: neither the blank
    row nor any of the two notes is written. *)
Theorem data_write_failure_aborts
  (W : Type) (remote : Remote W) (lib : PyLib) (cfg : config) (w : W)
  (r : exn + unit) (s : state W) (vals : list (list cell)) (e : exn) :
  run remote lib cfg w = (r, s) ->
  clear_completed (calls s) = true ->
  first_update (calls s) = Some (Event (Update START_CELL vals) (Some e)) ->
  r = inl e
  /\ exit_status r = 1%Z
  /\ existsb (on_call is_insert_row) (calls s) = false
  /\ existsb (on_call is_clock) (calls s) = false
  /\ filter (on_call is_update) (calls s)
     = [Event (Update START_CELL vals) (Some e)].
Proof.
  intros Hrun _ Hfirst. unfold first_update in Hfirst.
  apply run_shape in Hrun.
  destruct Hrun as [[Hb _]|[pre [fn [values [evs [Hc [Hb [_ Hs]]]]]]]].
  { rewrite (only_find_none _ _ _ before_write_not_update Hb) in Hfirst.
    discriminate. }
  rewrite Hc in *.
  rewrite (find_app_none _ _ evs
             (only_find_none _ _ _ before_write_not_update Hb))
    in Hfirst.
  rewrite existsb_app, existsb_app, filter_app.
  rewrite (only_existsb_false _ _ _ before_write_not_insert Hb).
  rewrite (only_existsb_false _ _ _ before_write_not_now Hb).
  rewrite (only_filter_nil _ _ _ before_write_not_update Hb).
  destruct Hs; cbn in Hfirst; try discriminate.
  injection Hfirst as <- <-.
  repeat split.
Qed.

Lemma data_write_failure_aborts_witness :
  fst (fake_run (mkScenario ["a.csv"; "b.txt"] true false))
  = inl (Error "APIError")
  /\ exit_status (fst (fake_run (mkScenario ["a.csv"; "b.txt"] true false)))
     = 1%Z
  /\ existsb (on_call is_insert_row)
       (calls (snd (fake_run (mkScenario ["a.csv"; "b.txt"] true false))))
     = false
  /\ existsb (on_call is_clock)
       (calls (snd (fake_run (mkScenario ["a.csv"; "b.txt"] true false))))
     = false
  /\ filter (on_call is_update)
       (calls (snd (fake_run (mkScenario ["a.csv"; "b.txt"] true false))))
     = [Event (Update START_CELL [[Str "a"; Str "b"]; [Int 1; Int 2]])
              (Some (Error "APIError"))].
Proof.
  apply (@data_write_failure_aborts unit
           (fake_remote (mkScenario ["a.csv"; "b.txt"] true false))
           fake_lib fake_cfg tt).
  - apply surjective_pairing.
  - vm_compute. reflexivity.
  - vm_compute. reflexivity.
Defined.

(* ------------------------------------------------------------------ *)
(** ** The notes of a completed run *)

(** C8 (as amended): for every run that returns after calling the
    spreadsheet service, that is, that completes the mutation sequence, the
    last calls are the insertion of a blank row of 26 cells at index 1, the
    reading of the clock, the write of the timestamp string to cell A1 (row
    1, column 1) and the write of "Source file name: <name of the downloaded
    file>" to cell D1 (row 1, column 4): both notes go to the inserted row,
    the second three columns to the right of the first. *)
Theorem completed_run_annotates_row_1
  (W : Type) (remote : Remote W) (lib : PyLib) (cfg : config) (w : W)
  (s : state W) :
  run remote lib cfg w = (inr tt, s) ->
  existsb (on_call is_sheet) (calls s) = true ->
  annotated 3 (calls s).
Proof.
  intros Hrun Hsheet.
  apply run_shape in Hrun.
  destruct Hrun as [[_ Hin]|[pre [fn [values [evs [Hc [Hb [Hretr Hs]]]]]]]].
  { rewrite (only_existsb_false _ _ _ input_not_sheet (Hin eq_refl)) in Hsheet.
    discriminate. }
  inversion Hs as [| | | | |timestamp Hr Hevs]. subst evs.
  exists (pre ++ [Event (data_write values) None]), fn, timestamp, "A1", "D1".
  split; [|split; [|split]].
  - rewrite Hc, <- app_assoc. reflexivity.
  - apply in_or_app. now left.
  - reflexivity.
  - reflexivity.
Qed.

Lemma completed_run_annotates_row_1_witness :
  annotated 3 (calls (snd (fake_run (mkScenario ["a.csv"] true true)))).
Proof.
  apply (@completed_run_annotates_row_1 unit
           (fake_remote (mkScenario ["a.csv"] true true))
           fake_lib fake_cfg tt).
  - reflexivity.
  - vm_compute. reflexivity.
Defined.

Lemma app_last_five (A : Type) (l pre : list A) (a b c d e : A) :
  l = pre ++ [a; b; c; d; e] ->
  firstn 5 (rev l) = [e; d; c; b; a].
Proof.
  intros ->. rewrite rev_app_distr. reflexivity.
Qed.

(** C8 as stated fails: in a completed run the name of the source file is
    written to D1, column 4, which is three columns, not four, to the right
    of A1. *)
Lemma source_note_offset_counterexample :
  fst (fake_run (mkScenario ["a.csv"] true true)) = inr tt /\
  existsb (on_call is_sheet)
    (calls (snd (fake_run (mkScenario ["a.csv"] true true)))) = true /\
  ~ annotated 4 (calls (snd (fake_run (mkScenario ["a.csv"] true true)))).
Proof.
  split; [reflexivity|]. split; [reflexivity|].
  intros [pre [fn [ts [c1 [c2 [Hlog [_ [_ Hc2]]]]]]]].
  apply app_last_five in Hlog. vm_compute in Hlog.
  assert (Hcell : c2 = "D1") by (injection Hlog; intros; congruence).
  subst c2. vm_compute in Hc2. discriminate Hc2.
Qed.

(* ------------------------------------------------------------------ *)
(** ** No candidate *)

(** C9 (as amended): for every run in which the eligibility filter yields
    an empty candidate set, no parse is attempted and no call to the
    spreadsheet service is made; the result of the run is the result of
    closing the FTP session: when [ftp.quit()] returns, [main] returns and
    the process ends with status 0. *)
Theorem no_candidates_stops_after_quit
  (W : Type) (remote : Remote W) (lib : PyLib) (cfg : config) (w : W)
  (s1 : state W) (r : exn + unit) (s : state W) :
  fetch_candidates remote lib cfg {| world := w; calls := [] |}
  = (inr [], s1) ->
  run remote lib cfg w = (r, s) ->
  existsb (on_call is_parse) (calls s) = false
  /\ existsb (on_call is_sheet) (calls s) = false
  /\ r = fst (ftp_quit remote (world s1))
  /\ ((exists w', ftp_quit remote (world s1) = (inr tt, w')) ->
      r = inr tt /\ exit_status r = 0%Z).
Proof.
  intros Hfetch Hrun.
  unfold run, main in Hrun. rewrite try_except_reraise in Hrun.
  unfold bind in Hrun. rewrite Hfetch in Hrun. cbn in Hrun.
  apply fetch_candidates_emits in Hfetch as [evs [Hc Ho]]. simpl in Hc.
  unfold perform in Hrun.
  destruct (ftp_quit remote (world s1)) as [q w'] eqn:Hq.
  injection Hrun as <- <-. cbn [calls fst].
  assert (Hall : only is_ftp (calls s1 ++ [Event FtpQuit (raised q)]) = true)
    by now rewrite only_app, Hc, Ho.
  split; [|split; [|split]].
  - apply (only_existsb_false _ is_parse) in Hall; [exact Hall|].
    now destruct c.
  - apply (only_existsb_false _ is_sheet) in Hall; [exact Hall|].
    now destruct c.
  - reflexivity.
  - intros [w'' Hw]. injection Hw as -> _. split; reflexivity.
Qed.

Lemma no_candidates_stops_after_quit_witness :
  existsb (on_call is_parse)
    (calls (snd (fake_run (mkScenario ["."; "notes.pdf"] true true)))) = false
  /\ existsb (on_call is_sheet)
       (calls (snd (fake_run (mkScenario ["."; "notes.pdf"] true true))))
     = false
  /\ fst (fake_run (mkScenario ["."; "notes.pdf"] true true)) = inr tt
  /\ exit_status (fst (fake_run (mkScenario ["."; "notes.pdf"] true true)))
     = 0%Z.
Proof.
  destruct (@no_candidates_stops_after_quit unit
              (fake_remote (mkScenario ["."; "notes.pdf"] true true))
              fake_lib fake_cfg tt
              (snd (fetch_candidates
                      (fake_remote (mkScenario ["."; "notes.pdf"] true true))
                      fake_lib fake_cfg {| world := tt; calls := [] |}))
              (fst (fake_run (mkScenario ["."; "notes.pdf"] true true)))
              (snd (fake_run (mkScenario ["."; "notes.pdf"] true true))))
    as [Hp [Hs [_ Hq]]].
  - reflexivity.
  - reflexivity.
  - destruct Hq as [Hr He]; [exists tt; reflexivity|].
    repeat split; assumption.
Defined.

(** C9 as stated fails: when the filter leaves no candidate and the
    closing [ftp.quit()] raises, the exception leaves [main] and the process
    ends with status 1. *)
Lemma no_candidates_quit_raises_counterexample :
  fetch_candidates (fake_remote (mkScenario ["."; "notes.pdf"] false true))
    fake_lib fake_cfg {| world := tt; calls := [] |}
  = (inr [],
     {| world := tt;
        calls := [Event (FtpConnect "ftp.example.org") None;
                  Event (FtpLogin "user" "secret") None;
                  Event (FtpCwd "/drop") None;
                  Event FtpNlst None] |}) /\
  exit_status (fst (fake_run (mkScenario ["."; "notes.pdf"] false true)))
  = 1%Z /\
  ~ no_candidates_clean_exit
      (fake_remote (mkScenario ["."; "notes.pdf"] false true))
      fake_lib fake_cfg tt.
Proof.
  split; [reflexivity|]. split; [reflexivity|].
  intros H. destruct (H _ eq_refl) as [_ [_ Hexit]].
  vm_compute in Hexit. discriminate Hexit.
Qed.

(* ================================================================== *)
(** * Further properties of the script *)

(* ------------------------------------------------------------------ *)
(** ** Start-up configuration *)

(** X1: the start-up code of lines 57-65 stops at the first required
    variable, in the order of the assignments, that is unset or empty, with
    the message that names it; when none is, it binds each setting to the
    value of its variable, and the worksheet name to the value of
    WORKSHEET_NAME, an empty one included, or to "OOCL_import" when that
    variable is unset. *)
Theorem load_settings_first_missing (env : environ) :
  (forall n,
      find (fun n => negb (is_set env n)) required_names = Some n ->
      load_settings env
      = inl ("ERROR: required env var " ++ n ++ " is not set.")%string)
  /\ (find (fun n => negb (is_set env n)) required_names = None ->
      exists st,
        load_settings env = inr st /\
        env "FTP_HOST" = Some (FTP_HOST (st_config st)) /\
        env "FTP_USER" = Some (FTP_USER (st_config st)) /\
        env "FTP_PASS" = Some (FTP_PASS (st_config st)) /\
        env "FTP_DIR" = Some (FTP_DIR (st_config st)) /\
        env "SPREADSHEET_ID" = Some (SPREADSHEET_ID (st_config st)) /\
        env "GOOGLE_SERVICE_ACCOUNT_JSON"
        = Some (st_service_account_json st) /\
        WORKSHEET_NAME (st_config st)
        = or_else (env "WORKSHEET_NAME") "OOCL_import").
Proof.
  unfold load_settings, required_names, required_env, is_set, and_then.
  cbn [find].
  destruct (env "FTP_HOST") as [[|c1 v1]|]; cbn [negb];
    [split; [intros n H; now injection H as <-|discriminate]| |
     split; [intros n H; now injection H as <-|discriminate]].
  destruct (env "FTP_USER") as [[|c2 v2]|]; cbn [negb];
    [split; [intros n H; now injection H as <-|discriminate]| |
     split; [intros n H; now injection H as <-|discriminate]].
  destruct (env "FTP_PASS") as [[|c3 v3]|]; cbn [negb];
    [split; [intros n H; now injection H as <-|discriminate]| |
     split; [intros n H; now injection H as <-|discriminate]].
  destruct (env "FTP_DIR") as [[|c4 v4]|]; cbn [negb];
    [split; [intros n H; now injection H as <-|discriminate]| |
     split; [intros n H; now injection H as <-|discriminate]].
  destruct (env "SPREADSHEET_ID") as [[|c5 v5]|]; cbn [negb];
    [split; [intros n H; now injection H as <-|discriminate]| |
     split; [intros n H; now injection H as <-|discriminate]].
  destruct (env "GOOGLE_SERVICE_ACCOUNT_JSON") as [[|c6 v6]|]; cbn [negb];
    [split; [intros n H; now injection H as <-|discriminate]| |
     split; [intros n H; now injection H as <-|discriminate]].
  split; [discriminate|]. intros _.
  eexists. split; [reflexivity|]. cbn. repeat split.
Qed.

(* ------------------------------------------------------------------ *)
(** ** The choice of the newest candidate, continued *)

Lemma item_last_in (A : Type) (l : list A) (d : A) :
  PyList.item_last l = Some d -> In d l.
Proof.
  induction l as [|x l IH]; [discriminate|].
  destruct l as [|y l].
  - intros H. injection H as <-. now left.
  - intros H. right. now apply IH.
Qed.

Lemma newest_in (l : list candidate) (t : candidate) :
  newest l = Some t -> In t l.
Proof.
  unfold newest.
  destruct (existsb (fun c => truthy (c_mdtm c)) l).
  - destruct l as [|x rest]; [discriminate|].
    intros H. injection H as <-. apply max_from_in.
  - intros H. apply item_last_in in H.
    eapply Permutation_in; [symmetry; apply sorted_perm|exact H].
Qed.

Lemma newest_some (l : list candidate) :
  l <> [] -> exists d, newest l = Some d.
Proof.
  intros Hl. unfold newest.
  destruct (existsb (fun c => truthy (c_mdtm c)) l).
  - destruct l as [|x rest]; [congruence|]. eexists. reflexivity.
  - apply item_last_some. intros E. apply Hl.
    apply Permutation_nil. rewrite <- E. symmetry. apply sorted_perm.
Qed.

(** X2: on a non-empty list the selection of lines 116-119 always returns
    one of the candidates, so that neither [max] nor the index [-1] can
    raise once line 111 has excluded the empty list. *)
Theorem newest_is_a_candidate (l : list candidate) :
  l <> [] ->
  exists d, newest l = Some d /\ In d l.
Proof.
  intros Hl. destruct (newest_some Hl) as [d Hd].
  exists d. split; [exact Hd|]. now apply newest_in.
Qed.

Lemma newest_is_a_candidate_witness :
  exists d,
    newest [Candidate "a.csv" None None;
            Candidate "b.xls" (Some 3%N) (Some 7%Z)] = Some d /\
    In d [Candidate "a.csv" None None;
          Candidate "b.xls" (Some 3%N) (Some 7%Z)].
Proof.
  apply newest_is_a_candidate. discriminate.
Defined.

(** X3: a candidate without modification time is selected, while another
    candidate has one, only when every known modification time is the
    minimum timestamp and no dated candidate has a greater name: line 117
    ranks a missing time as [datetime.min]. *)
Theorem newest_undated_only_over_minimum (l : list candidate) (d : candidate) :
  has_mtime l ->
  newest l = Some d ->
  c_mdtm d = None ->
  forall c t,
    In c l -> c_mdtm c = Some t ->
    t = datetime_min /\ PyStr.le (c_name c) (c_name d) = true.
Proof.
  intros Hm Hd Hnone c t Hc Ht.
  destruct (newest_greatest_key Hm) as [d' [Hd' [_ Hmax]]].
  rewrite Hd in Hd'. injection Hd' as <-.
  specialize (Hmax c Hc). unfold key_mtime_name, pair_gt in Hmax.
  rewrite Ht, Hnone in Hmax. cbn in Hmax. unfold datetime_min in *.
  destruct (N.eqb_spec t 0) as [->|Hne].
  - split; [reflexivity|]. now apply PyStrFacts.lt_false_le.
  - apply N.ltb_ge in Hmax. lia.
Qed.

Lemma newest_undated_only_over_minimum_witness :
  datetime_min = datetime_min /\ PyStr.le "a.csv" "b.csv" = true.
Proof.
  apply (@newest_undated_only_over_minimum
           [Candidate "a.csv" (Some datetime_min) None;
            Candidate "b.csv" None None]
           (Candidate "b.csv" None None)) with
    (c := Candidate "a.csv" (Some datetime_min) None).
  - eexists. split; [now left|discriminate].
  - reflexivity.
  - reflexivity.
  - now left.
  - reflexivity.
Defined.

(* ------------------------------------------------------------------ *)
(** ** The grid that is written, continued *)

Lemma sanitize_cell_plain (c : cell) :
  plain (sanitize_cell OtherDtype c) = true.
Proof. now destruct c as [| | |[]| | |]. Qed.

Lemma sanitize_cell_idempotent (d : dtype) (c : cell) :
  sanitize_cell d (sanitize_cell d c) = sanitize_cell d c.
Proof. destruct d; [reflexivity|]. now destruct c as [| | |[]| | |]. Qed.

Lemma map_typed_ext f g (r : list cell) : forall dts,
  (forall d c, f d c = g d c) ->
  map_typed f dts r = map_typed g dts r.
Proof.
  induction r as [|c r IH]; intros dts H; cbn; [reflexivity|].
  now rewrite H, (IH (tl dts) H).
Qed.

Lemma nth_firstn_default (A : Type) (d : A) (n : nat) : forall (l : list A) j,
  nth j l d = d -> nth j (firstn n l) d = d.
Proof.
  induction n as [|n IH]; intros l j H; [now destruct j|].
  destruct l as [|x l]; [now destruct j|].
  destruct j as [|j]; cbn in *; [exact H|]. now apply IH.
Qed.

Lemma truncate_columns_rows (df : DataFrame) :
  well_formed df ->
  Forall (fun r => List.length r
                   = Nat.min (List.length (columns df)) MAX_COLS)
         (rows (truncate_columns df))
  /\ List.length (columns (truncate_columns df))
     = Nat.min (List.length (columns df)) MAX_COLS.
Proof.
  intros Hwf. unfold truncate_columns, shape. cbn [snd].
  destruct (Nat.ltb_spec MAX_COLS (List.length (columns df))) as [H|H].
  - unfold iloc_cols. cbn [rows columns]. split.
    + rewrite Forall_map. unfold well_formed in Hwf.
      rewrite Forall_forall in *. intros r Hr.
      rewrite length_firstn, (Hwf r Hr). lia.
    + rewrite length_firstn. lia.
  - split.
    + unfold well_formed in Hwf. rewrite Forall_forall in *. intros r Hr.
      rewrite (Hwf r Hr). lia.
    + lia.
Qed.

Lemma normalize_lengths (str_of : cell -> string) (df : DataFrame) :
  well_formed df ->
  Forall (fun r => List.length r
                   = Nat.min (List.length (columns df)) MAX_COLS)
         (normalize str_of df).
Proof.
  intros Hwf. destruct (truncate_columns_rows Hwf) as [Hr Hc].
  unfold normalize, values_of. rewrite sanitize_rows, sanitize_columns.
  constructor.
  - now rewrite length_map.
  - rewrite Forall_map. rewrite Forall_forall in *. intros r Hin.
    rewrite length_map_typed. now apply Hr.
Qed.

(** X4: for every frame, the grid handed to the worksheet is rectangular:
    the header and every data row have [min(C, 26)] cells, [C] being the
    number of columns of the frame. *)
Theorem normalize_rectangular (str_of : cell -> string) (df : DataFrame) :
  well_formed df ->
  Forall (fun r => List.length r
                   = Nat.min (List.length (columns df)) MAX_COLS)
         (normalize str_of df).
Proof.
  intros Hwf. destruct (truncate_columns_rows Hwf) as [Hr Hc].
  unfold normalize, values_of. rewrite sanitize_rows, sanitize_columns.
  constructor.
  - now rewrite length_map.
  - rewrite Forall_map. rewrite Forall_forall in *. intros r Hin.
    rewrite length_map_typed. now apply Hr.
Qed.

Lemma normalize_rectangular_witness :
  Forall (fun r => List.length r
                   = Nat.min (List.length (columns fake_frame)) MAX_COLS)
         (normalize (str_of fake_lib) fake_frame).
Proof.
  apply normalize_rectangular. repeat constructor.
Defined.

Lemma truncate_columns_dtype (df : DataFrame) (j : nat) :
  nth j (dtypes df) OtherDtype = OtherDtype ->
  nth j (dtypes (truncate_columns df)) OtherDtype = OtherDtype.
Proof.
  intros H. unfold truncate_columns.
  destruct (MAX_COLS <? snd (shape df))%nat; [|exact H].
  unfold iloc_cols. cbn [dtypes]. now apply nth_firstn_default.
Qed.

(** X5: in the grid handed to the worksheet the header cells are strings,
    and no data cell of a column whose dtype is not datetime64 is positive
    infinity, negative infinity or a missing-value marker: every such cell
    went through the replacement and the fill of line 136. *)
Theorem normalize_plain (str_of : cell -> string) (df : DataFrame) :
  Forall (fun c => exists t, c = Str t) (hd [] (normalize str_of df))
  /\ forall i j r c,
       nth_error (tl (normalize str_of df)) i = Some r ->
       nth_error r j = Some c ->
       nth j (dtypes df) OtherDtype = OtherDtype ->
       plain c = true.
Proof.
  unfold normalize, values_of. cbn [hd tl].
  rewrite sanitize_rows, sanitize_columns. split.
  - apply Forall_map. apply Forall_forall. intros c _. now eexists.
  - intros i j r c Hr Hc Hd.
    rewrite nth_error_map in Hr.
    destruct (nth_error (rows (truncate_columns df)) i) as [r0|];
      [|discriminate Hr].
    injection Hr as <-.
    rewrite nth_error_map_typed in Hc.
    rewrite (truncate_columns_dtype df j Hd) in Hc.
    destruct (nth_error r0 j) as [c0|]; [|discriminate Hc].
    injection Hc as <-. apply sanitize_cell_plain.
Qed.

(** X6: the slice [row[:MAX_COLS]] of line 161 changes nothing: the rows
    of the normalized grid already have at most 26 cells, so the data write
    sends the normalized grid itself. *)
Theorem trimmed_is_normalized (str_of : cell -> string) (df : DataFrame) :
  well_formed df ->
  data_write (normalize str_of df) = Update START_CELL (normalize str_of df).
Proof.
  intros Hwf. unfold data_write. f_equal.
  pose proof (normalize_lengths str_of Hwf) as H.
  induction H as [|r l Hr _ IH]; [reflexivity|].
  cbn [map]. rewrite IH. f_equal.
  apply firstn_all2. rewrite Hr. apply Nat.le_min_r.
Qed.

Lemma trimmed_is_normalized_witness :
  data_write (normalize (str_of fake_lib) wide_frame)
  = Update START_CELL (normalize (str_of fake_lib) wide_frame).
Proof.
  apply trimmed_is_normalized. repeat constructor.
Defined.

(** X7: line 136 is idempotent, and it commutes with the truncation of
    lines 132-134: blanking the cells before or after dropping the columns
    beyond Z gives the same frame. *)
Theorem sanitize_idempotent_and_commutes (df : DataFrame) :
  sanitize (sanitize df) = sanitize df
  /\ sanitize (truncate_columns df) = truncate_columns (sanitize df).
Proof.
  split.
  - destruct df as [cols dts rs].
    unfold sanitize, fillna_empty, replace_inf_none, map_cells.
    cbn [columns dtypes rows]. f_equal.
    rewrite !map_map. apply map_ext. intros r.
    rewrite !map_typed_compose. apply map_typed_ext. intros d c.
    exact (sanitize_cell_idempotent d c).
  - unfold truncate_columns, shape. cbn [snd].
    rewrite sanitize_columns.
    destruct (MAX_COLS <? List.length (columns df))%nat; [|reflexivity].
    destruct df as [cols dts rs].
    unfold sanitize, fillna_empty, replace_inf_none, map_cells, iloc_cols.
    cbn [columns dtypes rows]. f_equal.
    rewrite !map_map. apply map_ext. intros r.
    now rewrite !map_typed_firstn.
Qed.

(* ------------------------------------------------------------------ *)
(** ** [get_mdtm] *)

Section MdtmFacts.
Variable W : Type.
Variable remote : Remote W.
Variable lib : PyLib.

Lemma get_mdtm_calls (name : string) (s : state W) :
  exists o w x,
    get_mdtm remote lib name s
    = (inr o,
       {| world := w;
          calls := calls s ++ [Event (FtpSendcmd ("MDTM " ++ name)) x] |}).
Proof.
  unfold get_mdtm, try_except, bind, perform.
  destruct (ftp_sendcmd remote ("MDTM " ++ name) (world s)) as [[e|resp] w].
  - now exists None, w, (Some e).
  - cbn [raised].
    destruct (PyStr.startswith "213" resp); [|now exists None, w, None].
    destruct (nth_error (PyStr.split resp) 1) as [ts|];
      [|now exists None, w, None].
    destruct (strptime lib (PyStr.strip ts)) as [d|].
    + now exists (Some d), w, None.
    + now exists None, w, None.
Qed.

(** X8: [get_mdtm] never raises and sends exactly one command, MDTM with
    the name; it returns a time exactly when the command returned a reply
    that starts with 213, has a second whitespace-separated field and that
    field is accepted by [strptime]; a raised command, another reply code, a
    reply without second field and a malformed time all give [None]. *)
Theorem get_mdtm_never_raises (name : string) (s : state W) :
  exists o,
    get_mdtm remote lib name s
    = (inr o,
       {| world := snd (ftp_sendcmd remote ("MDTM " ++ name) (world s));
          calls := calls s ++
                   [Event (FtpSendcmd ("MDTM " ++ name))
                          (raised (fst (ftp_sendcmd remote ("MDTM " ++ name)
                                                    (world s))))] |})
    /\ forall d,
         o = Some d <->
         exists resp ts,
           fst (ftp_sendcmd remote ("MDTM " ++ name) (world s)) = inr resp /\
           PyStr.startswith "213" resp = true /\
           nth_error (PyStr.split resp) 1 = Some ts /\
           strptime lib (PyStr.strip ts) = Some d.
Proof.
  unfold get_mdtm, try_except, bind, perform.
  destruct (ftp_sendcmd remote ("MDTM " ++ name) (world s)) as [[e|resp] w].
  - exists None. split; [reflexivity|].
    intros d. split; [discriminate|]. intros [r [ts [H _]]]. discriminate H.
  - cbn [fst snd raised].
    destruct (PyStr.startswith "213" resp) eqn:E1.
    2:{ exists None. split; [reflexivity|].
        intros d. split; [discriminate|].
        intros [r [ts [H [H1 _]]]]. injection H as <-. congruence. }
    destruct (nth_error (PyStr.split resp) 1) as [ts|] eqn:E2.
    2:{ exists None. split; [reflexivity|].
        intros d. split; [discriminate|].
        intros [r [ts [H [_ [H2 _]]]]]. injection H as <-. congruence. }
    destruct (strptime lib (PyStr.strip ts)) as [d0|] eqn:E3.
    + exists (Some d0). split; [reflexivity|].
      intros d. split.
      * intros H. injection H as <-. now exists resp, ts.
      * intros [r [ts' [H [_ [H2 H3]]]]]. injection H as <-.
        rewrite E2 in H2. injection H2 as <-. congruence.
    + exists None. split; [reflexivity|].
      intros d. split; [discriminate|].
      intros [r [ts' [H [_ [H2 H3]]]]]. injection H as <-.
      rewrite E2 in H2. injection H2 as <-. congruence.
Qed.
End MdtmFacts.

(* ------------------------------------------------------------------ *)
(** ** [load_df_from_bytes], continued *)

(** X9: whatever the extension, when [load_df_from_bytes] raises, the
    exception is the one of the latin1 attempt, the one of the first
    attempt being dropped, and the parser was called exactly twice, both
    calls raising. *)
Theorem load_df_raises_latin1_exception
  (W : Type) (lib : PyLib) (filename : string) (data : bytes)
  (s s' : state W) (e : exn) :
  load_df_from_bytes lib filename data s = (inl e, s') ->
  read_csv lib (Some "latin1") data = inl e
  /\ exists c e0,
       is_parse c = true /\
       calls s' = calls s ++ [Event c (Some e0);
                              Event (ReadCsv (Some "latin1")) (Some e)].
Proof.
  unfold load_df_from_bytes, try_except, evaluate, perform, raise.
  set (ext := PyStr.lower (PyStr.splitext_ext filename)).
  destruct (PyStr.mem ext [".csv"; ".txt"]).
  - destruct (read_csv lib None data) as [e0|df]; cbn.
    + destruct (read_csv lib (Some "latin1") data) as [e'|df] eqn:E;
        cbn; intros H; [|discriminate H].
      injection H as <- <-. split; [reflexivity|].
      exists (ReadCsv None), e0. split; [reflexivity|]. cbn [calls].
      now rewrite <- app_assoc.
    + discriminate.
  - destruct (PyStr.mem ext [".xls"; ".xlsx"]).
    + destruct (read_excel lib data) as [e0|df]; cbn.
      * destruct (read_csv lib (Some "latin1") data) as [e'|df] eqn:E;
          cbn; intros H; [|discriminate H].
        injection H as <- <-. split; [reflexivity|].
        exists ReadExcel, e0. split; [reflexivity|]. cbn [calls].
        now rewrite <- app_assoc.
      * discriminate.
    + destruct (read_csv lib None data) as [e0|df]; cbn.
      * destruct (read_csv lib (Some "latin1") data) as [e'|df] eqn:E;
          cbn; intros H; [|discriminate H].
        injection H as <- <-. split; [reflexivity|].
        exists (ReadCsv None), e0. split; [reflexivity|]. cbn [calls].
        now rewrite <- app_assoc.
      * discriminate.
Qed.

Lemma load_df_raises_latin1_exception_witness :
  read_csv strict_lib (Some "latin1") [] = inl (Error "ParserError")
  /\ exists c e0,
       is_parse c = true /\
       calls (snd (load_df_from_bytes strict_lib "report.csv" []
                     {| world := tt; calls := [] |}))
       = [] ++ [Event c (Some e0);
                Event (ReadCsv (Some "latin1")) (Some (Error "ParserError"))].
Proof.
  apply (@load_df_raises_latin1_exception unit strict_lib "report.csv" []
           {| world := tt; calls := [] |}).
  reflexivity.
Defined.

(** X10: for every name whose extension is neither .xls nor .xlsx (.csv,
    .txt, any other extension and no extension alike) the bytes are read as
    CSV and the Excel reader is never called: one call with the default
    encoding, whose table is returned when it succeeds, and after a failure
    one latin1 call whose result is the result of the parser. *)
Theorem text_files_read_as_csv
  (W : Type) (lib : PyLib) (filename : string) (data : bytes) (s : state W) :
  PyStr.mem (PyStr.lower (PyStr.splitext_ext filename)) [".xls"; ".xlsx"]
  = false ->
  load_df_from_bytes lib filename data s
  = match read_csv lib None data with
    | inr df =>
        (inr df,
         {| world := world s;
            calls := calls s ++ [Event (ReadCsv None) None] |})
    | inl e0 =>
        (read_csv lib (Some "latin1") data,
         {| world := world s;
            calls := calls s ++
                     [Event (ReadCsv None) (Some e0);
                      Event (ReadCsv (Some "latin1"))
                            (raised (read_csv lib (Some "latin1") data))] |})
    end.
Proof.
  intros Hext.
  unfold load_df_from_bytes, try_except, evaluate, perform, raise.
  rewrite Hext.
  destruct (PyStr.mem _ [".csv"; ".txt"]);
    destruct (read_csv lib None data) as [e0|df]; cbn;
    try reflexivity;
    rewrite <- app_assoc;
    now destruct (read_csv lib (Some "latin1") data).
Qed.

Lemma text_files_read_as_csv_witness :
  load_df_from_bytes strict_lib "notes" [] {| world := tt; calls := [] |}
  = (inl (Error "ParserError"),
     {| world := tt;
        calls := [Event (ReadCsv None) (Some (Error "UnicodeDecodeError"));
                  Event (ReadCsv (Some "latin1"))
                        (Some (Error "ParserError"))] |}).
Proof.
  apply (@text_files_read_as_csv unit strict_lib "notes" []
           {| world := tt; calls := [] |}).
  reflexivity.
Defined.

(* ------------------------------------------------------------------ *)
(** ** The listing *)

Lemma split_from_pending (s : string) : forall cur,
  cur <> [] -> PyStr.split_from s cur <> [].
Proof.
  induction s as [|c s IH]; intros cur Hcur; cbn.
  - destruct cur; [congruence|discriminate].
  - destruct (PyStr.isspace c).
    + destruct cur; [congruence|discriminate].
    + apply IH. discriminate.
Qed.

Lemma split_from_nonblank (s : string) : forall cur,
  PyStr.lstrip s <> EmptyString -> PyStr.split_from s cur <> [].
Proof.
  induction s as [|c s IH]; intros cur H; cbn in *; [congruence|].
  destruct (PyStr.isspace c).
  - destruct cur; [now apply IH|discriminate].
  - apply split_from_pending. discriminate.
Qed.

Lemma nonblank_lstrip (ln : string) :
  nonblank ln = true -> PyStr.lstrip ln <> EmptyString.
Proof.
  unfold nonblank, PyStr.strip. intros H E. rewrite E in H.
  discriminate H.
Qed.

(** A line that passes [if ln.strip()] has a last field. *)
Lemma nonblank_last_field (ln : string) :
  nonblank ln = true ->
  exists n, PyList.item_last (PyStr.split ln) = Some n.
Proof.
  intros H. apply item_last_some. unfold PyStr.split.
  apply split_from_nonblank. now apply nonblank_lstrip.
Qed.

Lemma names_of_lines_result (W : Type) (lines : list string) (s : state W) :
  exists names,
    names_of_lines lines s = (inr names, s) /\
    Forall2 (fun ln n => PyList.item_last (PyStr.split ln) = Some n)
            (filter nonblank lines) names.
Proof.
  induction lines as [|ln rest IH]; cbn [names_of_lines filter].
  - exists []. split; [reflexivity|constructor].
  - destruct IH as [names [Hrun Hnames]].
    unfold nonblank at 1.
    destruct (PyStr.strip ln) as [|c t] eqn:E.
    + exists names. split; assumption.
    + destruct (@nonblank_last_field ln) as [n Hn].
      { unfold nonblank. now rewrite E. }
      rewrite Hn. exists (n :: names). split.
      * unfold bind. now rewrite Hrun.
      * now constructor.
Qed.

(** X11: the comprehension of line 95 never raises: a line that passes
    [if ln.strip()] always has a last whitespace-separated field, so the
    index [-1] is safe; the result holds that field for each non-blank line,
    in order, blank lines being skipped, and no call is made. *)
Theorem names_of_lines_never_raises
  (W : Type) (lines : list string) (s : state W) :
  exists names,
    names_of_lines lines s = (inr names, s) /\
    List.length names = List.length (filter nonblank lines) /\
    Forall2 (fun ln n => PyList.item_last (PyStr.split ln) = Some n)
            (filter nonblank lines) names.
Proof.
  destruct (names_of_lines_result lines s) as [names [Hrun Hnames]].
  exists names. split; [exact Hrun|]. split; [|exact Hnames].
  symmetry. exact (Forall2_length Hnames).
Qed.

(** X12: [list_names] raises only when both listing commands raise: NLST
    first, then LIST, whose exception is the one that leaves; when NLST
    raises and LIST returns, the names are the last fields of the non-blank
    lines of the LIST reply. *)
Theorem list_names_needs_both_failures
  (W : Type) (remote : Remote W) (s : state W) :
  (forall e s',
      list_names remote s = (inl e, s') ->
      exists e0 w1,
        ftp_nlst remote (world s) = (inl e0, w1) /\
        fst (ftp_retrlines remote "LIST" w1) = inl e /\
        calls s' = calls s ++ [Event FtpNlst (Some e0);
                               Event (FtpRetrlines "LIST") (Some e)])
  /\ (forall e0 w1 lines w2,
         ftp_nlst remote (world s) = (inl e0, w1) ->
         ftp_retrlines remote "LIST" w1 = (inr lines, w2) ->
         exists names,
           list_names remote s
           = (inr names,
              {| world := w2;
                 calls := calls s ++ [Event FtpNlst (Some e0);
                                      Event (FtpRetrlines "LIST") None] |})
           /\ Forall2 (fun ln n => PyList.item_last (PyStr.split ln) = Some n)
                      (filter nonblank lines) names).
Proof.
  unfold list_names, try_except, bind, perform. split.
  - intros e s'.
    destruct (ftp_nlst remote (world s)) as [[e0|names] w1];
      [|discriminate].
    cbn [world calls raised].
    destruct (ftp_retrlines remote "LIST" w1) as [[e1|lines] w2] eqn:E2;
      cbn [fst raised].
    + intros H. injection H as <- <-. exists e0, w1.
      split; [reflexivity|]. split; [now rewrite E2|].
      cbn [calls]. now rewrite <- app_assoc.
    + intros H.
      destruct (names_of_lines_result lines
                  {| world := w2;
                     calls := (calls s ++ [Event FtpNlst (Some e0)]) ++
                              [Event (FtpRetrlines "LIST") None] |})
        as [names [Hrun _]].
      rewrite Hrun in H. discriminate H.
  - intros e0 w1 lines w2 H1 H2. rewrite H1. cbn [world calls raised].
    rewrite H2. cbn [raised].
    destruct (names_of_lines_result lines
                {| world := w2;
                   calls := (calls s ++ [Event FtpNlst (Some e0)]) ++
                            [Event (FtpRetrlines "LIST") None] |})
      as [names [Hrun Hnames]].
    exists names. split; [|exact Hnames].
    rewrite Hrun. now rewrite <- app_assoc.
Qed.

Lemma list_names_needs_both_failures_witness :
  exists names,
    list_names (list_remote (inr ["-rw-r--r-- 1 ftp ftp 10 a.csv"; "   ";
                                  "drwxr-xr-x 2 ftp ftp 0 old files"]))
               {| world := tt; calls := [] |}
    = (inr names,
       {| world := tt;
          calls := [] ++ [Event FtpNlst (Some (Error "error_perm"));
                          Event (FtpRetrlines "LIST") None] |})
    /\ Forall2 (fun ln n => PyList.item_last (PyStr.split ln) = Some n)
               (filter nonblank ["-rw-r--r-- 1 ftp ftp 10 a.csv"; "   ";
                                 "drwxr-xr-x 2 ftp ftp 0 old files"])
               names.
Proof.
  apply (proj2 (@list_names_needs_both_failures unit
                  (list_remote (inr ["-rw-r--r-- 1 ftp ftp 10 a.csv"; "   ";
                                     "drwxr-xr-x 2 ftp ftp 0 old files"]))
                  {| world := tt; calls := [] |})
               (Error "error_perm") tt
               ["-rw-r--r-- 1 ftp ftp 10 a.csv"; "   ";
                "drwxr-xr-x 2 ftp ftp 0 old files"] tt);
    reflexivity.
Defined.

(* ------------------------------------------------------------------ *)
(** ** The eligibility filter *)

Lemma size_queries_app (l1 l2 : list event) :
  size_queries (l1 ++ l2) = size_queries l1 ++ size_queries l2.
Proof. apply flat_map_app. Qed.

Lemma sized_app (l1 l2 : list event) :
  sized (l1 ++ l2) = sized l1 ++ sized l2.
Proof. apply flat_map_app. Qed.

Lemma downloads_app (l1 l2 : list event) :
  downloads (l1 ++ l2) = downloads l1 ++ downloads l2.
Proof. apply flat_map_app. Qed.

Lemma sized_queried (log : list event) (n : string) :
  In n (sized log) -> In n (size_queries log).
Proof.
  unfold sized, size_queries. rewrite !in_flat_map.
  intros [e [He Hn]]. exists e. split; [exact He|].
  destruct (ev_call e); try contradiction.
  now destruct (ev_raised e).
Qed.

Lemma sized_event (log : list event) (n : string) :
  In n (sized log) <-> In (Event (FtpSize n) None) log.
Proof.
  unfold sized. rewrite in_flat_map. split.
  - intros [[c x] [He Hn]]. cbn in Hn.
    destruct c; try contradiction. destruct x; [contradiction|].
    destruct Hn as [->|[]]. exact He.
  - intros H. exists (Event (FtpSize n) None). split; [exact H|now left].
Qed.

Section CollectFacts.
Variable W : Type.
Variable remote : Remote W.
Variable lib : PyLib.

Lemma collect_result (names : list string) : forall s : state W,
  exists cands s' evs,
    collect remote lib names s = (inr cands, s') /\
    calls s' = calls s ++ evs /\
    only is_probe evs = true /\
    size_queries evs
    = filter (fun n => negb (PyStr.mem n ["."; ".."]) && supported_extension n)
             names /\
    sized evs = map c_name cands.
Proof.
  induction names as [|n rest IH]; intros s; cbn [collect filter].
  - exists [], s, []. rewrite app_nil_r. repeat split.
  - destruct (PyStr.mem n ["."; ".."]) eqn:Edot; cbn [negb andb].
    { apply IH. }
    unfold supported_extension at 1.
    destruct (PyStr.mem (PyStr.lower (PyStr.splitext_ext n)) _) eqn:Eext;
      cbn [negb].
    2:{ apply IH. }
    unfold bind at 1. unfold try_except, bind at 1. unfold perform.
    destruct (ftp_size remote n (world s)) as [[e|size] w1];
      cbn [raised ret].
    + destruct (IH {| world := w1;
                      calls := calls s ++ [Event (FtpSize n) (Some e)] |})
        as [cands [s' [evs [Hrun [Hc [Ho [Hq Hs]]]]]]].
      exists cands, s', (Event (FtpSize n) (Some e) :: evs).
      split; [exact Hrun|]. split.
      { rewrite Hc. cbn [calls]. now rewrite <- app_assoc. }
      split; [exact Ho|]. split; [|exact Hs].
      rewrite <- Hq. reflexivity.
    + destruct (get_mdtm_calls remote lib n
                  {| world := w1;
                     calls := calls s ++ [Event (FtpSize n) None] |})
        as [o [w2 [x Hg]]].
      unfold bind. rewrite Hg. cbn [calls].
      destruct (IH {| world := w2;
                      calls := (calls s ++ [Event (FtpSize n) None]) ++
                               [Event (FtpSendcmd ("MDTM " ++ n)) x] |})
        as [cands [s' [evs [Hrun [Hc [Ho [Hq Hs]]]]]]].
      rewrite Hrun.
      exists (Candidate n o size :: cands), s',
        (Event (FtpSize n) None :: Event (FtpSendcmd ("MDTM " ++ n)) x :: evs).
      split; [reflexivity|]. split.
      { rewrite Hc. cbn [calls]. now rewrite <- !app_assoc. }
      split; [exact Ho|]. split.
      * rewrite <- Hq. reflexivity.
      * cbn [map c_name]. rewrite <- Hs. reflexivity.
Qed.

End CollectFacts.

(* ------------------------------------------------------------------ *)
(** ** The phases of a run *)

Lemma only_session_listing (l : list event) :
  only is_session l = true ->
  only is_listing l = true /\ size_queries l = [] /\ sized l = [].
Proof.
  induction l as [|[c x] l IH]; [now repeat split|].
  unfold only. cbn [forallb]. unfold on_call at 1. cbn [ev_call].
  intros H. apply andb_true_iff in H. destruct H as [Hc Hl].
  destruct (IH Hl) as [H1 [H2 H3]].
  unfold only in H1. unfold size_queries, sized in *.
  cbn [forallb flat_map]. unfold on_call at 1. cbn [ev_call ev_raised].
  rewrite H1, H2, H3. now destruct c.
Qed.

Lemma only_probe_listing (l : list event) :
  only is_probe l = true -> only is_listing l = true.
Proof. apply only_weaken. now intros []. Qed.

Lemma only_no_download (p : call -> bool) (l : list event) :
  (forall cmd, p (FtpRetrbinary cmd) = false) ->
  only p l = true -> downloads l = [].
Proof.
  intros Hp. induction l as [|[c x] l IH]; [reflexivity|].
  unfold only. cbn [forallb]. unfold on_call at 1. cbn [ev_call].
  intros H. apply andb_true_iff in H. destruct H as [Hc Hl].
  unfold downloads in *. cbn [flat_map ev_call]. rewrite (IH Hl).
  destruct c; try reflexivity. now rewrite Hp in Hc.
Qed.

Section Phases.
Variable W : Type.
Variable remote : Remote W.
Variable lib : PyLib.
Variable cfg : config.

Local Open Scope run_scope.

Lemma list_names_session : emits is_session (list_names remote).
Proof.
  unfold list_names.
  apply emits_try_except; [auto with emits|]. intros _.
  apply emits_bind; [auto with emits|]. intros lines s r s' H.
  destruct (names_of_lines_result lines s) as [names [Hrun _]].
  rewrite Hrun in H. injection H as <- <-.
  exists []. now rewrite app_nil_r.
Qed.

(** What the listing phase leaves in the list of calls. *)
Lemma fetch_candidates_result (s : state W) rf s1 :
  fetch_candidates remote lib cfg s = (rf, s1) ->
  exists listing,
    calls s1 = calls s ++ listing /\
    only is_listing listing = true /\
    Forall (fun n => eligible_name n = true) (size_queries listing) /\
    (forall cands, rf = inr cands -> sized listing = map c_name cands).
Proof.
  unfold fetch_candidates. intros H.
  assert (Hfail : forall (sx : state W) evs (e : exn),
             calls sx = calls s ++ evs -> only is_session evs = true ->
             exists listing,
               calls sx = calls s ++ listing /\
               only is_listing listing = true /\
               Forall (fun n => eligible_name n = true)
                      (size_queries listing) /\
               (forall cands, @inl exn (list candidate) e = inr cands ->
                              sized listing = map c_name cands)).
  { intros sx evs e Hc Ho. exists evs.
    destruct (only_session_listing _ Ho) as [H1 [H2 _]].
    split; [exact Hc|]. split; [exact H1|]. rewrite H2.
    split; [constructor|discriminate]. }
  apply bind_inv in H. destruct H as [[e [H ->]]|[[] [sa [Ha H]]]].
  { apply perform_inv in H. now apply (Hfail _ _ e H). }
  apply perform_inv in Ha.
  apply bind_inv in H. destruct H as [[e [H ->]]|[[] [sb [Hb H]]]].
  { apply perform_inv in H. rewrite Ha, <- app_assoc in H.
    now apply (Hfail _ _ e H). }
  apply perform_inv in Hb. rewrite Ha, <- app_assoc in Hb.
  apply bind_inv in H. destruct H as [[e [H ->]]|[[] [sc [Hc H]]]].
  { apply perform_inv in H. rewrite Hb, <- app_assoc in H.
    now apply (Hfail _ _ e H). }
  apply perform_inv in Hc. rewrite Hb, <- app_assoc in Hc.
  apply bind_inv in H. destruct H as [[e [H ->]]|[names [sd [Hd H]]]].
  { apply list_names_session in H. destruct H as [evs [He Ho]].
    rewrite Hc, <- app_assoc in He.
    apply (Hfail _ _ e He). exact Ho. }
  apply list_names_session in Hd. destruct Hd as [evs [Hd Ho]].
  rewrite Hc, <- app_assoc in Hd. cbn [app raised] in Hd.
  destruct (collect_result remote lib names sd)
    as [cands [s' [probes [Hrun [Hp [Hop [Hq Hs]]]]]]].
  rewrite Hrun in H. injection H as <- <-.
  set (session := Event (FtpConnect (FTP_HOST cfg)) None
                  :: Event (FtpLogin (FTP_USER cfg) (FTP_PASS cfg)) None
                  :: Event (FtpCwd (FTP_DIR cfg)) None :: evs) in *.
  assert (Hsess : only is_session session = true).
  { unfold session. change (only is_session evs = true). exact Ho. }
  destruct (only_session_listing _ Hsess) as [H1 [H2 H3]].
  exists (session ++ probes).
  split; [now rewrite Hp, Hd, <- app_assoc|].
  split; [rewrite only_app, H1; now apply only_probe_listing|].
  rewrite size_queries_app, sized_app, H2, H3. cbn [app].
  split.
  - rewrite Hq. apply Forall_forall. intros n Hn.
    apply filter_In in Hn. exact (proj2 Hn).
  - intros c Hcands. injection Hcands as <-. exact Hs.
Qed.

Lemma step1_clear_returned (ws : worksheet) (s s' : state W) :
  step1_clear remote ws s = (inr tt, s') ->
  exists evs,
    calls s' = calls s ++ evs /\
    only is_setup evs = true /\ window_cleared evs.
Proof.
  unfold step1_clear, try_except, perform.
  destruct (ws_batch_clear remote [A1Z_RANGE] (world s)) as [[e|[]] w1].
  - cbn [world calls raised].
    destruct (values_clear remote _ w1) as [[e1|[]] w2]; [discriminate|].
    intros H. injection H as <-. eexists. cbn [calls].
    split; [now rewrite <- app_assoc|]. split; [reflexivity|].
    eexists. split; [right; left; reflexivity|].
    right. now exists (ws_title ws).
  - intros H. injection H as <-. eexists. cbn [calls].
    split; [reflexivity|]. split; [reflexivity|].
    eexists. split; [left; reflexivity|]. now left.
Qed.

(** Lines 141-175: the setup calls, then steps 2 to 5 if a clear
    returned. *)
Lemma publish_phases (filename : string) (values : list (list cell)) s r s' :
  values <> [] ->
  publish remote cfg filename values s = (r, s') ->
  exists setup steps,
    calls s' = calls s ++ setup ++ steps /\
    only is_setup setup = true /\
    ((steps = [] /\ exists e, r = inl e) \/
     (window_cleared setup /\ steps_2_to_5 filename values r steps)).
Proof.
  intros Hv H. unfold publish in H.
  apply bind_inv in H. destruct H as [[e [H ->]]|[ws [s1 [H1 H]]]].
  { apply open_worksheet_emits in H as [evs [Hc Ho]].
    exists evs, []. rewrite app_nil_r. split; [exact Hc|].
    split; [exact Ho|]. left. split; [reflexivity|]. now exists e. }
  apply open_worksheet_emits in H1 as [evs1 [Hc1 Ho1]].
  apply bind_inv in H. destruct H as [[e [H ->]]|[[] [s2 [H2 H]]]].
  { apply step1_clear_emits in H as [evs [Hc Ho]].
    exists (evs1 ++ evs), []. rewrite app_nil_r.
    split; [now rewrite Hc, Hc1, app_assoc|].
    split; [now rewrite only_app, Ho1, Ho|].
    left. split; [reflexivity|]. now exists e. }
  apply step1_clear_returned in H2 as [evs2 [Hc2 [Ho2 Hclear]]].
  apply bind_inv in H. destruct H as [[e [H ->]]|[[] [s3 [H3 H]]]].
  { apply ensure_rows_emits in H as [evs [Hc Ho]].
    exists (evs1 ++ evs2 ++ evs), []. rewrite app_nil_r.
    split; [now rewrite Hc, Hc2, Hc1, <- !app_assoc|].
    split; [now rewrite !only_app, Ho1, Ho2, Ho|].
    left. split; [reflexivity|]. now exists e. }
  apply ensure_rows_emits in H3 as [evs3 [Hc3 Ho3]].
  apply steps_2_to_5_shape in H; [|exact Hv].
  destruct H as [steps [Hc Hs]].
  exists (evs1 ++ evs2 ++ evs3), steps.
  split; [now rewrite Hc, Hc3, Hc2, Hc1, <- !app_assoc|].
  split; [now rewrite !only_app, Ho1, Ho2, Ho3|].
  right. split; [|exact Hs].
  destruct Hclear as [c [Hin Hc0]]. exists c. split; [|exact Hc0].
  apply in_or_app. right. apply in_or_app. now left.
Qed.
End Phases.

Section RunPhases.
Variable W : Type.
Variable remote : Remote W.
Variable lib : PyLib.
Variable cfg : config.

Local Open Scope run_scope.

(** A run is a listing, the closing FTP calls, the parser calls, the setup
    calls and steps 2 to 5, each phase starting only when the one before
    went through. *)
Lemma run_phases (w : W) r s :
  run remote lib cfg w = (r, s) ->
  exists listing tail parse setup steps,
    calls s = listing ++ tail ++ parse ++ setup ++ steps /\
    only is_listing listing = true /\
    Forall (fun n => eligible_name n = true) (size_queries listing) /\
    closing (sized listing) tail /\
    only is_parse parse = true /\
    only is_setup setup = true /\
    (parse ++ setup ++ steps <> [] ->
     exists fn, tail = [Event (FtpRetrbinary ("RETR " ++ fn)) None;
                        Event FtpQuit None]) /\
    (steps = [] \/
     (window_cleared setup /\
      exists fn values, steps_2_to_5 fn values r steps)).
Proof.
  unfold run, main. rewrite try_except_reraise. intros H.
  apply bind_inv in H. destruct H as [[e [H ->]]|[cands [s1 [H1 H]]]].
  { apply fetch_candidates_result in H.
    destruct H as [listing [Hc [Ho [He _]]]]. cbn [calls app] in Hc.
    exists listing, [], [], [], []. rewrite !app_nil_r.
    split; [exact Hc|]. split; [exact Ho|]. split; [exact He|].
    split; [constructor|]. split; [reflexivity|]. split; [reflexivity|].
    split; [congruence|now left]. }
  apply fetch_candidates_result in H1.
  destruct H1 as [listing [Hc1 [Ho1 [He1 Hs1]]]]. cbn [calls app] in Hc1.
  specialize (Hs1 cands eq_refl).
  unfold process in H.
  destruct cands as [|c cs].
  { apply perform_inv in H. rewrite Hc1 in H.
    exists listing, [Event FtpQuit (raised r)], [], [], [].
    rewrite !app_nil_r.
    split; [exact H|]. split; [exact Ho1|]. split; [exact He1|].
    split; [now constructor|]. split; [reflexivity|]. split; [reflexivity|].
    split; [congruence|now left]. }
  destruct (newest (c :: cs)) as [t|] eqn:Hnew.
  2:{ injection H as <- <-.
      exists listing, [], [], [], []. rewrite !app_nil_r.
      split; [exact Hc1|]. split; [exact Ho1|]. split; [exact He1|].
      split; [constructor|]. split; [reflexivity|]. split; [reflexivity|].
      split; [congruence|now left]. }
  assert (Hknown : In (c_name t) (sized listing)).
  { rewrite Hs1. apply in_map. now apply newest_in. }
  clear Hnew Hs1.
  apply bind_inv in H. destruct H as [[e [H ->]]|[data [s2 [H2 H]]]].
  { apply perform_inv in H. rewrite Hc1 in H.
    exists listing, [Event (FtpRetrbinary ("RETR " ++ c_name t)) (Some e)],
      [], [], [].
    rewrite !app_nil_r.
    split; [exact H|]. split; [exact Ho1|]. split; [exact He1|].
    split; [now constructor|]. split; [reflexivity|]. split; [reflexivity|].
    split; [congruence|now left]. }
  apply perform_inv in H2. cbn [raised] in H2. rewrite Hc1 in H2.
  apply bind_inv in H. destruct H as [[e [H ->]]|[[] [s3 [H3 H]]]].
  { apply perform_inv in H. rewrite H2, <- app_assoc in H.
    exists listing, [Event (FtpRetrbinary ("RETR " ++ c_name t)) None;
                     Event FtpQuit (Some e)], [], [], [].
    rewrite !app_nil_r.
    split; [exact H|]. split; [exact Ho1|]. split; [exact He1|].
    split; [now constructor|]. split; [reflexivity|]. split; [reflexivity|].
    split; [congruence|now left]. }
  apply perform_inv in H3. cbn [raised] in H3.
  rewrite H2, <- app_assoc in H3. cbn [app] in H3.
  assert (Htail : closing (sized listing)
                    [Event (FtpRetrbinary ("RETR " ++ c_name t)) None;
                     Event FtpQuit None]) by now constructor.
  apply bind_inv in H. destruct H as [[e [H ->]]|[df [s4 [H4 H]]]].
  { apply load_df_from_bytes_emits in H as [parse [Hc Ho]].
    rewrite H3 in Hc.
    exists listing, [Event (FtpRetrbinary ("RETR " ++ c_name t)) None;
                     Event FtpQuit None], parse, [], [].
    rewrite !app_nil_r.
    split; [now rewrite Hc, <- app_assoc|].
    split; [exact Ho1|]. split; [exact He1|].
    split; [exact Htail|]. split; [exact Ho|]. split; [reflexivity|].
    split; [intros _; now exists (c_name t)|now left]. }
  apply load_df_from_bytes_emits in H4 as [parse [Hc4 Ho4]].
  rewrite H3 in Hc4.
  assert (Hv : normalize (str_of lib) df <> []) by discriminate.
  apply publish_phases in H; [|exact Hv].
  destruct H as [setup [steps [Hc [Hs Hout]]]].
  exists listing, [Event (FtpRetrbinary ("RETR " ++ c_name t)) None;
                   Event FtpQuit None], parse, setup, steps.
  split; [now rewrite Hc, Hc4, <- !app_assoc|].
  split; [exact Ho1|]. split; [exact He1|].
  split; [exact Htail|]. split; [exact Ho4|]. split; [exact Hs|].
  split; [intros _; now exists (c_name t)|].
  destruct Hout as [[-> _]|[Hclear Hsteps]]; [now left|].
  right. split; [exact Hclear|].
  now exists (c_name t), (normalize (str_of lib) df).
Qed.
End RunPhases.

Lemma app_split_first (A : Type) (q : A -> bool) (l1 : list A) :
  forall l2 pre e post,
    l1 ++ l2 = pre ++ e :: post ->
    existsb q l1 = false ->
    q e = true ->
    exists pre2, pre = l1 ++ pre2 /\ l2 = pre2 ++ e :: post.
Proof.
  induction l1 as [|x l1 IH]; intros l2 pre e post H Hq He.
  - now exists pre.
  - cbn in Hq. apply orb_false_iff in Hq. destruct Hq as [Hx Hl1].
    destruct pre as [|y pre]; cbn in H; injection H as -> H.
    + congruence.
    + destruct (IH _ _ _ _ H Hl1 He) as [pre2 [-> ->]]. now exists pre2.
Qed.

Lemma closing_only_ftp (known : list string) (tail : list event) :
  closing known tail -> only is_ftp tail = true.
Proof. now destruct 1. Qed.

Lemma steps_only_sheet_or_clock fn values r steps :
  steps_2_to_5 fn values r steps -> only is_sheet_or_clock steps = true.
Proof. now destruct 1. Qed.

Lemma only_listing_ftp (l : list event) :
  only is_listing l = true -> only is_ftp l = true.
Proof. apply only_weaken. now intros []. Qed.

Lemma only_setup_sheet (l : list event) :
  only is_setup l = true -> only is_sheet_or_clock l = true.
Proof. apply only_weaken. now intros []. Qed.

(** X14: in every run the FTP calls all come first, then the parser
    calls, then the calls to the spreadsheet service and the clock; and
    when a parser or spreadsheet call is made at all, the last FTP call is a
    QUIT that returned: the FTP session is closed before the file is parsed
    and before the worksheet is touched. *)
Theorem ftp_then_parse_then_sheet
  (W : Type) (remote : Remote W) (lib : PyLib) (cfg : config) (w : W)
  (r : exn + unit) (s : state W) :
  run remote lib cfg w = (r, s) ->
  exists ftp parse sheet,
    calls s = ftp ++ parse ++ sheet /\
    only is_ftp ftp = true /\
    only is_parse parse = true /\
    only is_sheet_or_clock sheet = true /\
    (parse ++ sheet <> [] -> exists ftp', ftp = ftp' ++ [Event FtpQuit None]).
Proof.
  intros Hrun. apply run_phases in Hrun.
  destruct Hrun as [listing [tail [parse [setup [steps
    [Hc [Ho [_ [Htail [Hp [Hs [Hquit Hsteps]]]]]]]]]]]].
  exists (listing ++ tail), parse, (setup ++ steps).
  split; [now rewrite Hc, <- !app_assoc|].
  split.
  { rewrite only_app, (only_listing_ftp _ Ho).
    now rewrite (closing_only_ftp Htail). }
  split; [exact Hp|]. split.
  { rewrite only_app, (only_setup_sheet _ Hs).
    destruct Hsteps as [->|[_ [fn [values Hst]]]]; [reflexivity|].
    now rewrite (steps_only_sheet_or_clock Hst). }
  intros Hne. destruct (Hquit Hne) as [fn ->].
  exists (listing ++ [Event (FtpRetrbinary ("RETR " ++ fn)) None]).
  now rewrite <- app_assoc.
Qed.

Lemma ftp_then_parse_then_sheet_witness :
  exists ftp parse sheet,
    calls (snd (fake_run (mkScenario ["a.csv"] true false)))
    = ftp ++ parse ++ sheet /\
    only is_ftp ftp = true /\
    only is_parse parse = true /\
    only is_sheet_or_clock sheet = true /\
    (parse ++ sheet <> [] -> exists ftp', ftp = ftp' ++ [Event FtpQuit None]).
Proof.
  apply (@ftp_then_parse_then_sheet unit
           (fake_remote (mkScenario ["a.csv"] true false)) fake_lib fake_cfg
           tt (fst (fake_run (mkScenario ["a.csv"] true false)))).
  apply surjective_pairing.
Defined.

(** X15: in every run, each [ws.update] call comes after a clear of the
    write window that returned ([batch_clear] of A1:Z, or [values_clear] of
    A1:Z on a titled worksheet), and each [insert_row] call comes after the
    data write at A1 and that write returned: nothing is written to a
    window that was not cleared, and the blank row is never inserted above
    data that was not written. *)
Theorem writes_follow_clear
  (W : Type) (remote : Remote W) (lib : PyLib) (cfg : config) (w : W)
  (r : exn + unit) (s : state W)
  (pre : list event) (e : event) (post : list event) :
  run remote lib cfg w = (r, s) ->
  calls s = pre ++ e :: post ->
  (is_update (ev_call e) = true -> window_cleared pre)
  /\ (is_insert_row (ev_call e) = true ->
      exists values, In (Event (data_write values) None) pre).
Proof.
  intros Hrun Hsplit. apply run_phases in Hrun.
  destruct Hrun as [listing [tail [parse [setup [steps
    [Hc [Ho [_ [Htail [Hp [Hs [_ Hsteps]]]]]]]]]]]].
  assert (Hb : only is_before_write (listing ++ tail ++ parse ++ setup)
               = true).
  { rewrite !only_app.
    rewrite (only_ftp_before _ (only_listing_ftp _ Ho)).
    rewrite (only_ftp_before _ (closing_only_ftp Htail)).
    rewrite (only_parse_before _ Hp). now rewrite (only_setup_before _ Hs). }
  rewrite Hc in Hsplit.
  replace (listing ++ tail ++ parse ++ setup ++ steps)
    with ((listing ++ tail ++ parse ++ setup) ++ steps) in Hsplit
    by now rewrite <- !app_assoc.
  split; intros He.
  - apply (app_split_first (on_call is_update)) in Hsplit;
      [|exact (only_existsb_false _ _ _ before_write_not_update Hb)
       |exact He].
    destruct Hsplit as [pre2 [-> Hst]].
    destruct Hsteps as [->|[Hclear _]].
    { destruct pre2; discriminate Hst. }
    destruct Hclear as [c [Hin Hwin]]. exists c. split; [|exact Hwin].
    apply in_or_app. left. apply in_or_app. right.
    apply in_or_app. right. apply in_or_app. now right.
  - apply (app_split_first (on_call is_insert_row)) in Hsplit;
      [|exact (only_existsb_false _ _ _ before_write_not_insert Hb)
       |exact He].
    destruct Hsplit as [pre2 [-> Hst]].
    destruct Hsteps as [->|[_ [fn [values Hsteps]]]].
    { destruct pre2; discriminate Hst. }
    exists values. apply in_or_app. right.
    destruct Hsteps; destruct pre2 as [|x pre2]; cbn in Hst;
      injection Hst as Hst1 Hst2; subst;
      try discriminate He; try (now left);
      destruct pre2; discriminate Hst2.
Qed.

Lemma writes_follow_clear_witness :
  window_cleared
    (firstn 17 (calls (snd (fake_run (mkScenario ["a.csv"] true true))))).
Proof.
  refine (proj1 (@writes_follow_clear unit
                   (fake_remote (mkScenario ["a.csv"] true true)) fake_lib
                   fake_cfg tt
                   (fst (fake_run (mkScenario ["a.csv"] true true)))
                   (snd (fake_run (mkScenario ["a.csv"] true true)))
                   (firstn 17 (calls (snd (fake_run
                                             (mkScenario ["a.csv"] true
                                                         true)))))
                   (Event (Update "D1" [[Str "Source file name: a.csv"]])
                          None)
                   [] _ _) _).
  - apply surjective_pairing.
  - reflexivity.
  - reflexivity.
Defined.

Lemma no_download_after (parse setup steps : list event) fn values r :
  only is_parse parse = true ->
  only is_setup setup = true ->
  steps = [] \/ steps_2_to_5 fn values r steps ->
  existsb (on_call is_download) (parse ++ setup ++ steps) = false.
Proof.
  intros Hp Hs Hst. rewrite !existsb_app.
  rewrite (only_existsb_false is_parse is_download parse);
    [|now intros []|exact Hp].
  rewrite (only_existsb_false is_setup is_download setup);
    [|now intros []|exact Hs].
  destruct Hst as [->|Hst]; [reflexivity|].
  apply (only_existsb_false is_sheet_or_clock is_download);
    [now intros []|].
  exact (steps_only_sheet_or_clock Hst).
Qed.

Lemma existsb_false_not_in (A : Type) (q : A -> bool) (l pre post : list A)
      (e : A) :
  existsb q l = false -> l = pre ++ e :: post -> q e = true -> False.
Proof.
  intros Hl -> He. rewrite existsb_app in Hl. cbn in Hl.
  rewrite He in Hl. now rewrite orb_true_r in Hl.
Qed.

(** X16: a run downloads at most one file, and at the point where it
    sends RETR the name it asks for has passed the eligibility test (not
    "." or "..", supported extension) and its size query has already
    returned: the successful SIZE call for that name stands before the RETR
    call in the list of calls. *)
Theorem download_is_eligible_and_sized
  (W : Type) (remote : Remote W) (lib : PyLib) (cfg : config) (w : W)
  (r : exn + unit) (s : state W) :
  run remote lib cfg w = (r, s) ->
  (List.length (downloads (calls s)) <= 1)%nat
  /\ forall pre cmd x post,
       calls s = pre ++ Event (FtpRetrbinary cmd) x :: post ->
       exists fn,
         cmd = ("RETR " ++ fn)%string /\
         eligible_name fn = true /\
         In (Event (FtpSize fn) None) pre.
Proof.
  intros Hrun. apply run_phases in Hrun.
  destruct Hrun as [listing [tail [parse [setup [steps
    [Hc [Ho [He [Htail [Hp [Hs [_ Hsteps]]]]]]]]]]]].
  assert (Hrest : existsb (on_call is_download) (parse ++ setup ++ steps)
                  = false).
  { destruct Hsteps as [->|[_ [fn [values Hst]]]].
    - apply (@no_download_after parse setup [] "" [] r Hp Hs). now left.
    - apply (@no_download_after parse setup steps fn values r Hp Hs).
      now right. }
  assert (Hknown : forall fn, In fn (sized listing) ->
            eligible_name fn = true /\
            In (Event (FtpSize fn) None) listing).
  { intros fn Hfn. split.
    - rewrite Forall_forall in He. apply He. now apply sized_queried.
    - now apply sized_event. }
  split.
  { assert (Hd : downloads (calls s) = downloads tail).
    { rewrite Hc, !downloads_app.
      rewrite (only_no_download is_listing listing (fun _ => eq_refl) Ho).
      rewrite (only_no_download is_parse parse (fun _ => eq_refl) Hp).
      rewrite (only_no_download is_setup setup (fun _ => eq_refl) Hs).
      assert (Hst : downloads steps = []).
      { destruct Hsteps as [->|[_ [fn [values Hst]]]]; [reflexivity|].
        apply (only_no_download is_sheet_or_clock steps (fun _ => eq_refl)).
        exact (steps_only_sheet_or_clock Hst). }
      rewrite Hst. now rewrite !app_nil_r. }
    rewrite Hd. destruct Htail; cbn; lia. }
  intros pre cmd x post Hsplit. rewrite Hc in Hsplit.
  apply (app_split_first (on_call is_download)) in Hsplit;
    [|apply (only_existsb_false is_listing is_download);
      [now intros []|exact Ho]
     |reflexivity].
  destruct Hsplit as [pre2 [-> Hst]].
  assert (Hquit : forall y, existsb (on_call is_download)
            (Event FtpQuit y :: parse ++ setup ++ steps) = false).
  { intros y. cbn [existsb]. exact Hrest. }
  destruct Htail as [|y Hy|fn e0 Hfn|fn y Hfn]; cbn [app] in Hst.
  - exfalso.
    exact (@existsb_false_not_in _ (on_call is_download) _ _ _ _
             Hrest Hst eq_refl).
  - exfalso.
    exact (@existsb_false_not_in _ (on_call is_download) _ _ _ _
             (Hquit y) Hst eq_refl).
  - destruct pre2 as [|z pre2]; cbn [app] in Hst.
    + injection Hst as Hcmd _ _. exists fn. split; [now symmetry|].
      destruct (Hknown fn Hfn) as [H1 H2]. split; [exact H1|].
      now rewrite app_nil_r.
    + injection Hst as _ Hst. exfalso.
      exact (@existsb_false_not_in _ (on_call is_download) _ _ _ _
               Hrest Hst eq_refl).
  - destruct pre2 as [|z pre2]; cbn [app] in Hst.
    + injection Hst as Hcmd _ _. exists fn. split; [now symmetry|].
      destruct (Hknown fn Hfn) as [H1 H2]. split; [exact H1|].
      now rewrite app_nil_r.
    + injection Hst as _ Hst. exfalso.
      exact (@existsb_false_not_in _ (on_call is_download) _ _ _ _
               (Hquit y) Hst eq_refl).
Qed.

Lemma download_is_eligible_and_sized_witness :
  (List.length
     (downloads (calls (snd (fake_run (mkScenario ["."; "a.csv"; "b.pdf"]
                                                   true true))))) <= 1)%nat
  /\ forall pre cmd x post,
       calls (snd (fake_run (mkScenario ["."; "a.csv"; "b.pdf"] true true)))
       = pre ++ Event (FtpRetrbinary cmd) x :: post ->
       exists fn,
         cmd = ("RETR " ++ fn)%string /\
         eligible_name fn = true /\
         In (Event (FtpSize fn) None) pre.
Proof.
  apply (@download_is_eligible_and_sized unit
           (fake_remote (mkScenario ["."; "a.csv"; "b.pdf"] true true))
           fake_lib fake_cfg tt
           (fst (fake_run (mkScenario ["."; "a.csv"; "b.pdf"] true true)))).
  apply surjective_pairing.
Defined.

(* ------------------------------------------------------------------ *)
(** ** Opening the worksheet *)

(** X17: [open_worksheet] creates a worksheet only after the lookup raised
    [WorksheetNotFound]: when the lookup returns it makes no other call,
    when the lookup raises anything else that exception leaves and nothing
    is created.  The worksheet is created under the configured name with 26
    columns and exactly [max(100, len(values) + 10)] rows, and [ensure_rows]
    adds no row to a worksheet that has that many rows. *)
Theorem worksheet_created_only_when_missing
  (W : Type) (remote : Remote W) (cfg : config) (values : list (list cell))
  (s : state W) (r : exn + worksheet) (s' : state W) :
  open_worksheet remote cfg values s = (r, s') ->
  ((exists e, r = inl e /\
              calls s' = calls s ++
                [Event (OpenByKey (SPREADSHEET_ID cfg)) (Some e)])
   \/ (exists ws, r = inr ws /\
                  calls s' = calls s ++
                    [Event (OpenByKey (SPREADSHEET_ID cfg)) None;
                     Event (GetWorksheet (WORKSHEET_NAME cfg)) None])
   \/ (exists what, r = inl (Error what) /\
                    calls s' = calls s ++
                      [Event (OpenByKey (SPREADSHEET_ID cfg)) None;
                       Event (GetWorksheet (WORKSHEET_NAME cfg))
                             (Some (Error what))])
   \/ (calls s' = calls s ++
         [Event (OpenByKey (SPREADSHEET_ID cfg)) None;
          Event (GetWorksheet (WORKSHEET_NAME cfg))
                (Some WorksheetNotFound);
          Event (AddWorksheet (WORKSHEET_NAME cfg)
                              (Nat.max 100 (List.length values + 10)) 26)
                (raised r)] /\
       forall title (s0 : state W),
         ensure_rows remote
           (mkWorksheet title (Nat.max 100 (List.length values + 10)))
           values s0
         = (inr tt, s0))).
Proof.
  unfold open_worksheet, bind, perform.
  destruct (open_by_key remote (SPREADSHEET_ID cfg) (world s))
    as [[e|[]] w1]; cbn [world calls raised].
  { intros H. injection H as <- <-. left. now exists e. }
  destruct (sh_worksheet remote (WORKSHEET_NAME cfg) w1)
    as [[[|what]|ws] w2]; cbn [world calls raised].
  - destruct (sh_add_worksheet remote (WORKSHEET_NAME cfg) _ MAX_COLS w2)
      as [r2 w3].
    intros H. injection H as <- <-. right. right. right. split.
    + cbn [calls]. now rewrite <- !app_assoc.
    + intros title s0. unfold ensure_rows. cbn [ws_row_count].
      destruct (Nat.ltb_spec (Nat.max 100 (List.length values + 10))
                             (List.length values)); [lia|reflexivity].
  - intros H. injection H as <- <-. right. right. left. exists what.
    split; [reflexivity|]. cbn [calls]. now rewrite <- app_assoc.
  - intros H. injection H as <- <-. right. left. exists ws.
    split; [reflexivity|]. cbn [calls]. now rewrite <- app_assoc.
Qed.

Lemma worksheet_created_only_when_missing_witness :
  (exists e, @inr exn worksheet (mkWorksheet "OOCL_import" 100) = inl e /\
             calls (snd (open_worksheet (list_remote (inr [])) fake_cfg
                           [[Str "a"]] {| world := tt; calls := [] |}))
             = [] ++ [Event (OpenByKey (SPREADSHEET_ID fake_cfg)) (Some e)])
  \/ (exists ws, @inr exn worksheet (mkWorksheet "OOCL_import" 100) = inr ws /\
                 calls (snd (open_worksheet (list_remote (inr [])) fake_cfg
                               [[Str "a"]] {| world := tt; calls := [] |}))
                 = [] ++ [Event (OpenByKey (SPREADSHEET_ID fake_cfg)) None;
                          Event (GetWorksheet (WORKSHEET_NAME fake_cfg)) None])
  \/ (exists what,
         @inr exn worksheet (mkWorksheet "OOCL_import" 100)
         = inl (Error what) /\
         calls (snd (open_worksheet (list_remote (inr [])) fake_cfg
                       [[Str "a"]] {| world := tt; calls := [] |}))
         = [] ++ [Event (OpenByKey (SPREADSHEET_ID fake_cfg)) None;
                  Event (GetWorksheet (WORKSHEET_NAME fake_cfg))
                        (Some (Error what))])
  \/ (calls (snd (open_worksheet (list_remote (inr [])) fake_cfg
                    [[Str "a"]] {| world := tt; calls := [] |}))
      = [] ++
        [Event (OpenByKey (SPREADSHEET_ID fake_cfg)) None;
         Event (GetWorksheet (WORKSHEET_NAME fake_cfg))
               (Some WorksheetNotFound);
         Event (AddWorksheet (WORKSHEET_NAME fake_cfg)
                             (Nat.max 100 (List.length [[Str "a"]] + 10)) 26)
               (raised (@inr exn worksheet
                          (mkWorksheet "OOCL_import" 100)))] /\
      forall title (s0 : state unit),
        ensure_rows (list_remote (inr []))
          (mkWorksheet title (Nat.max 100 (List.length [[Str "a"]] + 10)))
          [[Str "a"]] s0
        = (inr tt, s0)).
Proof.
  apply (@worksheet_created_only_when_missing unit (list_remote (inr []))
           fake_cfg [[Str "a"]] {| world := tt; calls := [] |}).
  reflexivity.
Defined.

(* ------------------------------------------------------------------ *)
(** ** Where the listing fails *)

(** X18: the part of [main] that connects and builds [candidates] (lines
    86-109, which make no [log] call) raises only at one of four calls:
    the connection, the login, the change of directory, or the LIST sent
    after NLST raised.  The exception that leaves is that call's, every
    call before it returned (NLST apart, whose exception was caught), and
    no SIZE or MDTM had been sent: a size query or a timestamp query that
    raises never makes the listing fail, and neither does a line of the
    LIST reply. *)
Theorem listing_raises_only_at_session_call
  (W : Type) (remote : Remote W) (lib : PyLib) (cfg : config)
  (s : state W) (e : exn) (s' : state W) :
  fetch_candidates remote lib cfg s = (inl e, s') ->
  calls s' = calls s ++ [Event (FtpConnect (FTP_HOST cfg)) (Some e)]
  \/ calls s' = calls s ++
        [Event (FtpConnect (FTP_HOST cfg)) None;
         Event (FtpLogin (FTP_USER cfg) (FTP_PASS cfg)) (Some e)]
  \/ calls s' = calls s ++
        [Event (FtpConnect (FTP_HOST cfg)) None;
         Event (FtpLogin (FTP_USER cfg) (FTP_PASS cfg)) None;
         Event (FtpCwd (FTP_DIR cfg)) (Some e)]
  \/ exists e0,
        calls s' = calls s ++
          [Event (FtpConnect (FTP_HOST cfg)) None;
           Event (FtpLogin (FTP_USER cfg) (FTP_PASS cfg)) None;
           Event (FtpCwd (FTP_DIR cfg)) None;
           Event FtpNlst (Some e0);
           Event (FtpRetrlines "LIST") (Some e)].
Proof.
  unfold fetch_candidates, list_names, try_except, bind, perform.
  destruct (ftp_connect remote (FTP_HOST cfg) (world s)) as [[e1|[]] w1];
    cbn [world calls raised].
  { intros H. injection H as <- <-. now left. }
  destruct (ftp_login remote (FTP_USER cfg) (FTP_PASS cfg) w1)
    as [[e2|[]] w2]; cbn [world calls raised].
  { intros H. injection H as <- <-. right. left. cbn [calls].
    now rewrite <- app_assoc. }
  destruct (ftp_cwd remote (FTP_DIR cfg) w2) as [[e3|[]] w3];
    cbn [world calls raised].
  { intros H. injection H as <- <-. right. right. left. cbn [calls].
    now rewrite <- !app_assoc. }
  destruct (ftp_nlst remote w3) as [[e0|names] w4]; cbn [world calls raised].
  - destruct (ftp_retrlines remote "LIST" w4) as [[e5|lines] w5];
      cbn [world calls raised].
    + intros H. injection H as <- <-. right. right. right. exists e0.
      cbn [calls]. now rewrite <- !app_assoc.
    + match goal with
      | |- context [names_of_lines lines ?st] =>
          destruct (names_of_lines_result lines st) as [names [Hrun _]];
          rewrite Hrun
      end.
      match goal with
      | |- context [collect remote lib names ?st] =>
          destruct (collect_result remote lib names st)
            as [cands [s1 [evs [Hrun2 _]]]];
          rewrite Hrun2
      end.
      discriminate.
  - match goal with
    | |- context [collect remote lib names ?st] =>
        destruct (collect_result remote lib names st)
          as [cands [s1 [evs [Hrun2 _]]]];
        rewrite Hrun2
    end.
    discriminate.
Qed.

Lemma listing_raises_only_at_session_call_witness :
  calls (snd (fetch_candidates (list_remote (inl (Error "error_temp")))
                fake_lib fake_cfg {| world := tt; calls := [] |}))
  = [] ++ [Event (FtpConnect (FTP_HOST fake_cfg)) (Some (Error "error_temp"))]
  \/ calls (snd (fetch_candidates (list_remote (inl (Error "error_temp")))
                   fake_lib fake_cfg {| world := tt; calls := [] |}))
     = [] ++
       [Event (FtpConnect (FTP_HOST fake_cfg)) None;
        Event (FtpLogin (FTP_USER fake_cfg) (FTP_PASS fake_cfg))
              (Some (Error "error_temp"))]
  \/ calls (snd (fetch_candidates (list_remote (inl (Error "error_temp")))
                   fake_lib fake_cfg {| world := tt; calls := [] |}))
     = [] ++
       [Event (FtpConnect (FTP_HOST fake_cfg)) None;
        Event (FtpLogin (FTP_USER fake_cfg) (FTP_PASS fake_cfg)) None;
        Event (FtpCwd (FTP_DIR fake_cfg)) (Some (Error "error_temp"))]
  \/ exists e0,
       calls (snd (fetch_candidates (list_remote (inl (Error "error_temp")))
                     fake_lib fake_cfg {| world := tt; calls := [] |}))
       = [] ++
         [Event (FtpConnect (FTP_HOST fake_cfg)) None;
          Event (FtpLogin (FTP_USER fake_cfg) (FTP_PASS fake_cfg)) None;
          Event (FtpCwd (FTP_DIR fake_cfg)) None;
          Event FtpNlst (Some e0);
          Event (FtpRetrlines "LIST") (Some (Error "error_temp"))].
Proof.
  apply (@listing_raises_only_at_session_call unit
           (list_remote (inl (Error "error_temp"))) fake_lib fake_cfg
           {| world := tt; calls := [] |} (Error "error_temp")).
  reflexivity.
Defined.
